(** * Blog REST API: authentication, revocation and ownership checks

    A shallow embedding of the Express handlers of the blog back end
    ([middleware/authMiddleware.js], [controllers/authController.js],
    [controllers/postController.js], [controllers/commentController.js],
    [utils/errorHandling.js]) together with the properties of the
    authentication / authorization core that they implement.

    Handlers are asynchronous JavaScript functions that talk to MongoDB
    through Mongoose, verify JSON Web Tokens and log through an
    [ErrorHandler].  They are embedded as computations in a small monad that
    threads the persistent collections, a schedule of store failures and a
    journal of the effects performed, and that can raise exceptions. *)

From Stdlib Require Import ZArith String Ascii List Bool Lia.
From stdpp Require Import gmap strings.

Open Scope string_scope.
Open Scope list_scope.
Open Scope Z_scope.

(** ** JavaScript values and string primitives *)

(** A parsed JSON value, as [express.json()] puts it in [req.body].  Numbers
    are only ever tested for truthiness by the handlers, so an integer
    payload is enough. *)
#[local] Unset Elimination Schemes.
Inductive json : Type :=
| JNull
| JBool (b : bool)
| JNum (n : Z)
| JStr (s : string)
| JArr (items : list json)
| JObj (fields : list (string * json)).
#[local] Set Elimination Schemes.

(** Truthiness of a string: only the empty string is falsy. *)
Definition truthy_string (s : string) : bool :=
  negb (String.eqb s EmptyString).

(** Truthiness of a JSON value. *)
Definition truthy_json (v : json) : bool :=
  match v with
  | JNull => false
  | JBool b => b
  | JNum n => negb (n =? 0)%Z
  | JStr s => truthy_string s
  | JArr _ => true
  | JObj _ => true
  end.

(** Truthiness of a possibly [undefined] value ([None] is [undefined]). *)
Definition truthy {A : Type} (t : A -> bool) (v : option A) : bool :=
  match v with
  | None => false
  | Some a => t a
  end.

(** [typeof v === 'string'] *)
Definition is_string (v : json) : bool :=
  match v with JStr _ => true | _ => false end.

(** [s.startsWith(p)] *)
Definition startsWith (p s : string) : bool := String.prefix p s.

(** [s.split(sep)] for a one-character separator: the pieces between the
    separators, always at least one piece. *)
Fixpoint split (sep : ascii) (s : string) : list string :=
  match s with
  | EmptyString => [EmptyString]
  | String c rest =>
      if Ascii.eqb c sep then EmptyString :: split sep rest
      else match split sep rest with
           | [] => [String c EmptyString]
           | piece :: pieces => String c piece :: pieces
           end
  end.

(** [s.substring(n)] *)
Definition substring_from (n : nat) (s : string) : string :=
  String.substring n (String.length s - n) s.

(** [s.replace(pat, rep)] with a string pattern: only the first occurrence
    is replaced. *)
Fixpoint replace (pat rep s : string) : string :=
  if String.prefix pat s then rep +:+ substring_from (String.length pat) s
  else match s with
       | EmptyString => EmptyString
       | String c rest => String c (replace pat rep rest)
       end.

(** ** Documents *)

(** [models/BlacklistedToken.js] (fields as written by [addToBlacklist]). *)
Record BlacklistedToken : Type := mkBlacklistedToken {
  token : string;
  expiresAt : Z
}.

(** [models/User.js] (fields as used by the controllers). *)
Record User : Type := mkUser {
  username : string;
  email : string;
  password : string;
  role : string;
  resetPasswordToken : option string;
  resetPasswordExpires : option Z
}.

(** [models/Post.js] *)
Record Post : Type := mkPost {
  title : string;
  content : string;
  author : option string;
  category : option string;
  tags : list string;
  published : bool;
  createdAt : Z
}.

(** [models/Comment.js] (fields as used by [commentController.js]). *)
Record Comment : Type := mkComment {
  comment_post : string;
  comment_author : option string;
  comment_content : string;
  comment_createdAt : Z
}.

(** The MongoDB collections.  Documents of [users], [posts] and [comments]
    are keyed by their [_id]; blacklist entries are kept in insertion order
    because [create] may add several documents for one token. *)
Record Store : Type := mkStore {
  blacklistedTokens : list BlacklistedToken;
  users : gmap string User;
  posts : gmap string Post;
  comments : gmap string Comment
}.

(** The decoded payload of a token signed by [jwt.sign({ userId }, secret,
    { expiresIn })]; [iat] and [exp] are in seconds. *)
Record JwtPayload : Type := mkJwtPayload {
  userId : string;
  iat : Z;
  exp : Z
}.

(** An Express request, reduced to what the handlers read. *)
Record Request : Type := mkRequest {
  authorization : option string;
  params : gmap string string;
  body : gmap string json;
  user : option JwtPayload
}.

(** The response sent by [res.status(status).json({ message, ... })],
    reduced to its status and message. *)
Record Response : Type := mkResponse {
  status : Z;
  message : string
}.

(** ** Effects *)

Record Error : Type := mkError {
  error_name : string;
  error_message : string
}.

(** Operations issued against the store. *)
Inductive DbOp : Type :=
| OpBlacklistFindOne (tok : string)
| OpBlacklistCreate (tok : string) (expires : Z)
| OpUserFindById (id : string)
| OpUserFindOneReset (id : string) (tok : string) (after : Z)
| OpUserSave (id : string)
| OpPostFindById (id : string)
| OpPostSave (id : string)
| OpPostDeleteOne (id : string)
| OpPostPopulate (id : string)
| OpCommentFindById (id : string)
| OpCommentDeleteOne (id : string).

(** Everything a handler does besides computing its response. *)
Inductive Event : Type :=
| EvDb (op : DbOp)
| EvJwtVerify (tok : string)
| EvLogError (msg : string) (statusCode : Z)
| EvLogInfo (msg : string)
| EvLogSuccess (msg : string).

(** The world a handler runs in: the collections, the outcome scheduled for
    each of the coming store operations ([true]: the driver rejects the
    operation, e.g. the connection is down; an exhausted schedule means no
    further failure) and the journal of effects, oldest first. *)
Record World : Type := mkWorld {
  store : Store;
  faults : list bool;
  journal : list Event
}.

Inductive Result (A : Type) : Type :=
| Ok (a : A)
| Throw (e : Error).
Arguments Ok {A} a.
Arguments Throw {A} e.

Definition M (A : Type) : Type := World -> Result A * World.

Definition ret {A : Type} (a : A) : M A := fun w => (Ok a, w).

Definition throw {A : Type} (e : Error) : M A := fun w => (Throw e, w).

Definition bind {A B : Type} (m : M A) (k : A -> M B) : M B :=
  fun w =>
    match m w with
    | (Ok a, w') => k a w'
    | (Throw e, w') => (Throw e, w')
    end.

(** [try { m } catch (err) { h err }] *)
Definition try_catch {A : Type} (m : M A) (h : Error -> M A) : M A :=
  fun w =>
    match m w with
    | (Ok a, w') => (Ok a, w')
    | (Throw e, w') => h e w'
    end.

Notation "x <- m ;; k" := (bind m (fun x => k))
  (at level 100, m at next level, right associativity).

Definition emit (ev : Event) : M unit :=
  fun w => (Ok tt, mkWorld (store w) (faults w) (journal w ++ [ev])).

(** One awaited store operation: it is journalled, then either rejected by
    the driver (per the schedule) or run against the collections. *)
Definition db_call {A : Type} (op : DbOp)
    (run : Store -> Result A * Store) : M A :=
  fun w =>
    let j := journal w ++ [EvDb op] in
    let fs := tl (faults w) in
    if hd false (faults w) then
      (Throw (mkError "MongoNetworkError" "store unavailable"),
       mkWorld (store w) fs j)
    else
      let (r, s) := run (store w) in (r, mkWorld s fs j).

(** ** [utils/errorHandling.js] *)

Module errorHandler.

(** [handleError]: logs the error with its status code and answers with
    the user message (the stack is attached in development builds only). *)
Definition handleError (error : string) (statusCode : Z)
    (userMessage : string) : M Response :=
  _ <- emit (EvLogError error statusCode) ;;
  ret (mkResponse statusCode userMessage).

(** The handlers below take an optional [userMessage]; [None] stands for an
    omitted argument, which selects the default message. *)
Definition handleValidationError (error : string)
    (userMessage : option string) : M Response :=
  handleError error 400 (default "Validation failed" userMessage).

Definition handleAuthError (error : string) (userMessage : option string)
    : M Response :=
  handleError error 401 (default "Unauthorized access" userMessage).

Definition handleNotFoundError (error : string)
    (userMessage : option string) : M Response :=
  handleError error 404 (default "Resource not found" userMessage).

Definition handleDatabaseError (error : string)
    (userMessage : option string) : M Response :=
  handleError error 500 (default "Database error occurred" userMessage).

Definition logSuccess (msg : string) : M unit := emit (EvLogSuccess msg).

Definition logInfo (msg : string) : M unit := emit (EvLogInfo msg).

End errorHandler.

(** ** The handlers *)

(** How a middleware ends: it answers itself, or calls [next()] and hands
    the (possibly extended) request to the next handler. *)
Inductive Outcome : Type :=
| Responded (res : Response)
| Next (req : Request).

(** [router.post(path, mw, handler)] *)
Definition route (mw : Request -> M Outcome) (handler : Request -> M Response)
    (req : Request) : M Response :=
  o <- mw req ;;
  match o with
  | Responded res => ret res
  | Next req' => handler req'
  end.

(** The token [protect] takes from [req.headers.authorization]:
    [authorization.split(' ')[1]] when the header is set and starts with
    ['Bearer '], [undefined] otherwise. *)
Definition bearer_token (authorization : option string) : option string :=
  match authorization with
  | Some h =>
      if truthy_string h && startsWith "Bearer " h
      then nth_error (split " " h) 1
      else None
  | None => None
  end.

(** [req.user.userId]; a [TypeError] when [req.user] is undefined. *)
Definition req_user_userId (req : Request) : M string :=
  match user req with
  | Some decoded => ret (userId decoded)
  | None =>
      throw (mkError "TypeError"
               "Cannot read properties of undefined (reading 'userId')")
  end.

Section Handlers.

(** [jsonwebtoken]: the payload of a token whose signature verifies under
    [process.env.JWT_SECRET], [None] for any other string. *)
Variable jwt_payload : string -> option JwtPayload.

(** Whether the schema of [models/BlacklistedToken.js] declares [token]
    unique; with a unique index a second [create] for the same token is
    rejected with a duplicate-key error. *)
Variable uniqueToken : bool.

(** The [password] path of [models/User.js]: the stored form of a value
    assigned to [user.password] (cast and hashed on save), [None] when the
    schema rejects the value. *)
Variable storedPassword : json -> option string.

(** [jwt.verify(token, process.env.JWT_SECRET)] at time [now] (in ms). *)
Definition jwt_verify (now : Z) (tok : string) : M JwtPayload :=
  _ <- emit (EvJwtVerify tok) ;;
  match jwt_payload tok with
  | None => throw (mkError "JsonWebTokenError" "invalid token")
  | Some decoded =>
      if (exp decoded <=? now / 1000)%Z
      then throw (mkError "TokenExpiredError" "jwt expired")
      else ret decoded
  end.

(** [BlacklistedToken.findOne({ token })] *)
Definition BlacklistedToken_findOne (tok : string)
    : M (option BlacklistedToken) :=
  db_call (OpBlacklistFindOne tok)
    (fun s =>
       (Ok (List.find (fun d => String.eqb (token d) tok)
              (blacklistedTokens s)), s)).

(** [BlacklistedToken.create({ token, expiresAt })] *)
Definition BlacklistedToken_create (doc : BlacklistedToken) : M unit :=
  db_call (OpBlacklistCreate (token doc) (expiresAt doc))
    (fun s =>
       if uniqueToken &&
          existsb (fun d => String.eqb (token d) (token doc))
            (blacklistedTokens s)
       then (Throw (mkError "MongoServerError"
                      "E11000 duplicate key error"), s)
       else (Ok tt,
             mkStore (blacklistedTokens s ++ [doc]) (users s) (posts s)
               (comments s))).

(** [User.findById(id)] *)
Definition User_findById (id : string) : M (option User) :=
  db_call (OpUserFindById id) (fun s => (Ok (users s !! id), s)).

(** *** [middleware/authMiddleware.js] *)

(** [protect] (lines 6-30): [next()] is [Next] with [req.user] set. *)
Definition protect (now : Z) (req : Request) : M Outcome :=
  let token := bearer_token (authorization req) in
  let no_token :=
    res <- errorHandler.handleAuthError "No token provided" None ;;
    ret (Responded res) in
  match token with
  | None => no_token
  | Some tok =>
      if negb (truthy_string tok) then no_token
      else
        try_catch
          (blacklistedToken <- BlacklistedToken_findOne tok ;;
           match blacklistedToken with
           | Some _ =>
               res <- errorHandler.handleAuthError "Token is invalid" None ;;
               ret (Responded res)
           | None =>
               decoded <- jwt_verify now tok ;;
               _ <- errorHandler.logInfo "Token verified" ;;
               ret (Next (mkRequest (authorization req) (params req)
                            (body req) (Some decoded)))
           end)
          (fun err =>
             res <- errorHandler.handleAuthError (error_message err)
                      (Some "Token verification failed") ;;
             ret (Responded res))
  end.

(** [addToBlacklist] (lines 33-42) *)
Definition addToBlacklist (now : Z) (tok : string) : M unit :=
  try_catch
    (let expiresAt := (now + 30 * 24 * 60 * 60 * 1000)%Z in
     _ <- BlacklistedToken_create (mkBlacklistedToken tok expiresAt) ;;
     errorHandler.logSuccess "Token blacklisted")
    (fun error => throw error).

(** *** [controllers/authController.js] *)

(** [signoutUser] (lines 188-201) *)
Definition signoutUser (now : Z) (req : Request) : M Response :=
  try_catch
    (let token :=
       option_map (replace "Bearer " EmptyString) (authorization req) in
     if negb (truthy truthy_string token) then
       errorHandler.handleValidationError "No token provided" None
     else
       _ <- addToBlacklist now (default EmptyString token) ;;
       _ <- req_user_userId req ;;
       _ <- errorHandler.logSuccess "User signed out" ;;
       ret (mkResponse 200 "Successfully signed out"))
    (fun error =>
       errorHandler.handleDatabaseError (error_message error)
         (Some "Error signing out")).

(** [User.findOne({ _id, resetPasswordToken, resetPasswordExpires:
    { $gt: now } })] *)
Definition User_findOne_reset (id tok : string) (now : Z)
    : M (option User) :=
  db_call (OpUserFindOneReset id tok now)
    (fun s =>
       (Ok (match users s !! id with
            | Some u =>
                match resetPasswordToken u, resetPasswordExpires u with
                | Some t, Some e =>
                    if String.eqb t tok && (now <? e)%Z then Some u else None
                | _, _ => None
                end
            | None => None
            end), s)).

(** [user.save()] of the loaded user document [u] after its fields were
    assigned. *)
Definition User_save (id : string) (u : User) : M unit :=
  db_call (OpUserSave id)
    (fun s =>
       (Ok tt,
        mkStore (blacklistedTokens s) (<[id := u]> (users s)) (posts s)
          (comments s))).

(** Validation and the pre-save hook of the [password] path, run by
    [save()] before anything is written. *)
Definition validate_password (pw : json) : M string :=
  match storedPassword pw with
  | Some hashed => ret hashed
  | None =>
      throw (mkError "ValidationError" "User validation failed: password")
  end.

(** [resetPassword] (lines 309-338) *)
Definition resetPassword (now : Z) (req : Request) : M Response :=
  try_catch
    (let token := body req !! "token" in
     let newPassword := body req !! "newPassword" in
     if negb (truthy truthy_json token)
        || negb (truthy truthy_json newPassword) then
       errorHandler.handleValidationError
         "Token and new password are required" None
     else
       match default JNull token with
       | JStr tok =>
           decoded <- jwt_verify now tok ;;
           user <- User_findOne_reset (userId decoded) tok now ;;
           match user with
           | None =>
               errorHandler.handleNotFoundError
                 "Invalid or expired token" None
           | Some u =>
               hashed <- validate_password (default JNull newPassword) ;;
               _ <- User_save (userId decoded)
                      (mkUser (username u) (email u) hashed (role u)
                         None None) ;;
               _ <- errorHandler.logSuccess "Password reset" ;;
               ret (mkResponse 200 "Password reset successful")
           end
       | _ =>
           (* jwt.verify rejects a token that is not a string *)
           throw (mkError "JsonWebTokenError" "jwt must be a string")
       end)
    (fun error =>
       errorHandler.handleError (error_message error) 400 "Invalid token").

End Handlers.

Section PostHandlers.

(** [String.prototype.trim] *)
Variable trim : string -> string.

(** [mongoose.isValidObjectId] *)
Variable isValidObjectId : json -> bool.

(** The cast Mongoose applies to a value assigned to a path of type
    [ObjectId]; [None] when the value cannot be cast. *)
Variable castObjectId : json -> option string.

(** [typeof v !== 'string' || v.trim().length === 0] *)
Definition not_a_nonblank_string (v : json) : bool :=
  match v with
  | JStr s => (String.length (trim s) =? 0)%nat
  | _ => true
  end.

(** [!Array.isArray(v) || v.some(tag => typeof tag !== 'string')] *)
Definition not_an_array_of_strings (v : json) : bool :=
  match v with
  | JArr items => existsb (fun tag => negb (is_string tag)) items
  | _ => true
  end.

(** [v.trim()] *)
Definition json_trim (v : json) : M string :=
  match v with
  | JStr s => ret (trim s)
  | _ => throw (mkError "TypeError" "trim is not a function")
  end.

(** Assignment to a path of type [ObjectId]; a value that cannot be cast
    makes [save()] reject before anything is written. *)
Definition assign_ObjectId (v : json) : M (option string) :=
  match castObjectId v with
  | Some id => ret (Some id)
  | None => throw (mkError "ValidationError" "Cast to ObjectId failed")
  end.

(** Assignment to a path of type [[String]]. *)
Definition assign_strings (v : json) : M (list string) :=
  match v with
  | JArr items =>
      if existsb (fun tag => negb (is_string tag)) items
      then throw (mkError "ValidationError" "Cast to [string] failed")
      else ret (flat_map (fun tag => match tag with
                                     | JStr s => [s]
                                     | _ => []
                                     end) items)
  | _ => throw (mkError "ValidationError" "Cast to [string] failed")
  end.

(** [id.toString()] of a possibly undefined [ObjectId]. *)
Definition ObjectId_toString (id : option string) : M string :=
  match id with
  | Some s => ret s
  | None =>
      throw (mkError "TypeError"
               "Cannot read properties of undefined (reading 'toString')")
  end.

Definition Post_findById (id : string) : M (option Post) :=
  db_call (OpPostFindById id) (fun s => (Ok (posts s !! id), s)).

Definition Post_save (id : string) (p : Post) : M unit :=
  db_call (OpPostSave id)
    (fun s =>
       (Ok tt,
        mkStore (blacklistedTokens s) (users s) (<[id := p]> (posts s))
          (comments s))).

Definition Post_deleteOne (id : string) : M unit :=
  db_call (OpPostDeleteOne id)
    (fun s =>
       (Ok tt,
        mkStore (blacklistedTokens s) (users s) (delete id (posts s))
          (comments s))).

(** [Post.findById(id).populate('author', ...).populate('category', ...)] *)
Definition Post_findById_populate (id : string) : M (option Post) :=
  db_call (OpPostPopulate id) (fun s => (Ok (posts s !! id), s)).

Definition Comment_findById (id : string) : M (option Comment) :=
  db_call (OpCommentFindById id) (fun s => (Ok (comments s !! id), s)).

Definition Comment_deleteOne (id : string) : M unit :=
  db_call (OpCommentDeleteOne id)
    (fun s =>
       (Ok tt,
        mkStore (blacklistedTokens s) (users s) (posts s)
          (delete id (comments s)))).

(** [!id || !mongoose.isValidObjectId(id)] for a route parameter. *)
Definition invalid_id_param (id : option string) : bool :=
  negb (truthy truthy_string id)
  || negb (isValidObjectId (JStr (default EmptyString id))).

(** *** [controllers/postController.js] *)

(** [updatePost]: the populated post sent back with the answer is left out
    of the response, the query that builds it is not. *)
Definition updatePost (req : Request) : M Response :=
  try_catch
    (let postId := params req !! "postId" in
     let body_title := body req !! "title" in
     let body_content := body req !! "content" in
     let body_category := body req !! "category" in
     let body_tags := body req !! "tags" in
     userId <- req_user_userId req ;;
     if invalid_id_param postId then
       errorHandler.handleValidationError "Invalid post ID" None
     else if truthy truthy_json body_title
             && truthy not_a_nonblank_string body_title then
       errorHandler.handleValidationError "Title must be a non-empty string"
         None
     else if truthy truthy_json body_content
             && truthy not_a_nonblank_string body_content then
       errorHandler.handleValidationError
         "Content must be a non-empty string" None
     else if truthy truthy_json body_category
             && negb (truthy isValidObjectId body_category) then
       errorHandler.handleValidationError "Invalid category ID" None
     else if truthy truthy_json body_tags
             && truthy not_an_array_of_strings body_tags then
       errorHandler.handleValidationError "Tags must be an array of strings"
         None
     else
       let postId := default EmptyString postId in
       post <- Post_findById postId ;;
       match post with
       | None => errorHandler.handleNotFoundError "Post not found" None
       | Some post =>
           user <- User_findById userId ;;
           match user with
           | None => errorHandler.handleNotFoundError "User not found" None
           | Some user =>
               post_author <- ObjectId_toString (author post) ;;
               if negb (String.eqb post_author userId)
                  && negb (String.eqb (role user) "admin") then
                 errorHandler.handleAuthError
                   "Not authorized to update this post" None
               else
                 post_title <-
                   (if truthy truthy_json body_title
                    then json_trim (default JNull body_title)
                    else ret (title post)) ;;
                 post_content <-
                   (if truthy truthy_json body_content
                    then json_trim (default JNull body_content)
                    else ret (content post)) ;;
                 post_category <-
                   (if truthy truthy_json body_category
                    then assign_ObjectId (default JNull body_category)
                    else ret (category post)) ;;
                 post_tags <-
                   (if truthy truthy_json body_tags
                    then assign_strings (default JNull body_tags)
                    else ret (tags post)) ;;
                 _ <- Post_save postId
                        (mkPost post_title post_content (author post)
                           post_category post_tags (published post)
                           (createdAt post)) ;;
                 _ <- Post_findById_populate postId ;;
                 _ <- errorHandler.logSuccess "Post updated" ;;
                 ret (mkResponse 200 "Post updated successfully")
           end
       end)
    (fun error =>
       errorHandler.handleDatabaseError (error_message error) None).

Definition deletePost (req : Request) : M Response :=
  try_catch
    (let postId := params req !! "postId" in
     userId <- req_user_userId req ;;
     if invalid_id_param postId then
       errorHandler.handleValidationError "Invalid post ID" None
     else
       let postId := default EmptyString postId in
       post <- Post_findById postId ;;
       match post with
       | None => errorHandler.handleNotFoundError "Post not found" None
       | Some post =>
           user <- User_findById userId ;;
           match user with
           | None => errorHandler.handleNotFoundError "User not found" None
           | Some user =>
               post_author <- ObjectId_toString (author post) ;;
               if negb (String.eqb post_author userId)
                  && negb (String.eqb (role user) "admin") then
                 errorHandler.handleAuthError
                   "Not authorized to delete this post" None
               else
                 _ <- Post_deleteOne postId ;;
                 _ <- errorHandler.logSuccess "Post deleted" ;;
                 ret (mkResponse 200 "Post deleted successfully")
           end
       end)
    (fun error =>
       errorHandler.handleDatabaseError (error_message error) None).

(** *** [controllers/commentController.js] *)

Definition deleteComment (req : Request) : M Response :=
  try_catch
    (let commentId := params req !! "commentId" in
     userId <- req_user_userId req ;;
     if invalid_id_param commentId then
       errorHandler.handleValidationError "Invalid comment ID" None
     else
       let commentId := default EmptyString commentId in
       comment <- Comment_findById commentId ;;
       match comment with
       | None => errorHandler.handleNotFoundError "Comment not found" None
       | Some comment =>
           user <- User_findById userId ;;
           match user with
           | None => errorHandler.handleNotFoundError "User not found" None
           | Some user =>
               comment_author <-
                 ObjectId_toString (comment_author comment) ;;
               if negb (String.eqb comment_author userId)
                  && negb (String.eqb (role user) "admin") then
                 errorHandler.handleAuthError
                   "Not authorized to delete this comment" None
               else
                 _ <- Comment_deleteOne commentId ;;
                 _ <- errorHandler.logSuccess "Comment deleted" ;;
                 ret (mkResponse 200 "Comment deleted successfully")
           end
       end)
    (fun error =>
       errorHandler.handleDatabaseError (error_message error) None).

End PostHandlers.


(** * Specification vocabulary *)

(** [s.includes(c)] for a character. *)
Fixpoint includes (c : ascii) (s : string) : bool :=
  match s with
  | EmptyString => false
  | String d rest => Ascii.eqb d c || includes c rest
  end.

(** A header of the form [Bearer <token>] with a non-empty token part. *)
Definition bearer_form (h : string) : Prop :=
  exists tok, tok <> EmptyString /\ h = "Bearer " +:+ tok.

(** [MissingCredential]: 401, logged as ['No token provided']; nothing else
    is done. *)
Definition reply_missing_credential (w : World) : Result Outcome * World :=
  (Ok (Responded (mkResponse 401 "Unauthorized access")),
   mkWorld (store w) (faults w)
     (journal w ++ [EvLogError "No token provided" 401])).

(** [RevokedCredential]: 401, logged as ['Token is invalid'], right after the
    blacklist lookup. *)
Definition reply_revoked (tok : string) (w : World) : Result Outcome * World :=
  (Ok (Responded (mkResponse 401 "Unauthorized access")),
   mkWorld (store w) (tl (faults w))
     (journal w ++ [EvDb (OpBlacklistFindOne tok);
                    EvLogError "Token is invalid" 401])).

(** The answer of [protect] when the blacklist lookup is rejected by the
    store. *)
Definition reply_store_failure (tok : string) (w : World)
    : Result Outcome * World :=
  (Ok (Responded (mkResponse 401 "Token verification failed")),
   mkWorld (store w) (tl (faults w))
     (journal w ++ [EvDb (OpBlacklistFindOne tok);
                    EvLogError "store unavailable" 401])).

(** The events journalled between the worlds [w] and [w']. *)
Definition effects_since (w w' : World) : list Event :=
  drop (length (journal w)) (journal w').

(** What [BlacklistedToken.findOne({ token: t })] finds in a store. *)
Definition lookup_token (t : string) (s : Store) : option BlacklistedToken :=
  List.find (fun d => String.eqb (token d) t) (blacklistedTokens s).

(** The blacklist as a set: the tokens that have an entry. *)
Definition revoked_tokens (s : Store) : gset string :=
  list_to_set (map token (blacklistedTokens s)).

Definition blacklist_add (tok : string) (e : Z) (s : Store) : Store :=
  mkStore (blacklistedTokens s ++ [mkBlacklistedToken tok e]) (users s)
    (posts s) (comments s).

Definition thirty_days : Z := 30 * 24 * 60 * 60 * 1000.

(** The user document written by a successful [resetPassword]. *)
Definition clear_reset (hashed : string) (u : User) : User :=
  mkUser (username u) (email u) hashed (role u) None None.

Definition set_user (id : string) (u : User) (s : Store) : Store :=
  mkStore (blacklistedTokens s) (<[id := u]> (users s)) (posts s) (comments s).

(** [InvalidOrExpiredToken]: 404, logged as ['Invalid or expired token'],
    after the token was verified and the user looked up. *)
Definition reply_invalid_or_expired (id tok : string) (now : Z) (w : World)
    : Result Response * World :=
  (Ok (mkResponse 404 "Resource not found"),
   mkWorld (store w) (tl (faults w))
     (journal w ++ [EvJwtVerify tok; EvDb (OpUserFindOneReset id tok now);
                    EvLogError "Invalid or expired token" 404])).

(** What [updatePost] may do to the post [p] stored under [pid]: the fields
    [author], [createdAt] and [published] are kept, a field of the body that
    is absent or falsy leaves the corresponding field of the post as it was,
    and nothing else in the store changes. *)
Definition update_frame (req : Request) (pid : string) (p : Post)
    (s s' : Store) : Prop :=
  exists p',
    posts s' !! pid = Some p'
    /\ author p' = author p
    /\ createdAt p' = createdAt p
    /\ published p' = published p
    /\ (truthy truthy_json (body req !! "title") = false ->
        title p' = title p)
    /\ (truthy truthy_json (body req !! "content") = false ->
        content p' = content p)
    /\ (truthy truthy_json (body req !! "category") = false ->
        category p' = category p)
    /\ (truthy truthy_json (body req !! "tags") = false ->
        tags p' = tags p)
    /\ (forall id, id <> pid -> posts s' !! id = posts s !! id)
    /\ users s' = users s
    /\ comments s' = comments s
    /\ blacklistedTokens s' = blacklistedTokens s.

(** A computation that neither reads nor changes the world. *)
Definition pure {A : Type} (m : M A) : Prop :=
  exists r, forall w, m w = (r, w).

(** The three handlers guarded by the owner-or-admin check. *)
Inductive Guarded : Type := DeleteComment | UpdatePost | DeletePost.

Definition target_param (g : Guarded) : string :=
  match g with
  | DeleteComment => "commentId"
  | UpdatePost | DeletePost => "postId"
  end.

Definition target_find (g : Guarded) (id : string) : DbOp :=
  match g with
  | DeleteComment => OpCommentFindById id
  | UpdatePost | DeletePost => OpPostFindById id
  end.

(** The author of the target resource: [None] when the resource does not
    exist, [Some None] when it has no author. *)
Definition target_author (g : Guarded) (id : string) (s : Store)
    : option (option string) :=
  match g with
  | DeleteComment => option_map comment_author (comments s !! id)
  | UpdatePost | DeletePost => option_map author (posts s !! id)
  end.

Definition denial (g : Guarded) : string :=
  match g with
  | DeleteComment => "Not authorized to delete this comment"
  | UpdatePost => "Not authorized to update this post"
  | DeletePost => "Not authorized to delete this post"
  end.

Definition success_message (g : Guarded) : string :=
  match g with
  | DeleteComment => "Comment deleted successfully"
  | UpdatePost => "Post updated successfully"
  | DeletePost => "Post deleted successfully"
  end.

(** The condition under which the handlers answer 'Not authorized'. *)
Definition denied (uid owner : string) (u : User) : bool :=
  negb (String.eqb owner uid) && negb (String.eqb (role u) "admin").

Section Guarded.

Variable trim : string -> string.
Variable isValidObjectId : json -> bool.
Variable castObjectId : json -> option string.

Definition guarded_handler (g : Guarded) : Request -> M Response :=
  match g with
  | DeleteComment => deleteComment isValidObjectId
  | UpdatePost => updatePost trim isValidObjectId castObjectId
  | DeletePost => deletePost isValidObjectId
  end.

(** The body of an update is rejected by the input validation. *)
Definition update_rejected (req : Request) : bool :=
  truthy truthy_json (body req !! "title")
    && truthy (not_a_nonblank_string trim) (body req !! "title")
  || truthy truthy_json (body req !! "content")
       && truthy (not_a_nonblank_string trim) (body req !! "content")
  || truthy truthy_json (body req !! "category")
       && negb (truthy isValidObjectId (body req !! "category"))
  || truthy truthy_json (body req !! "tags")
       && truthy not_an_array_of_strings (body req !! "tags").

(** The request passes the validation that precedes the authorization. *)
Definition reaches_authorization (g : Guarded) (req : Request) : bool :=
  negb (invalid_id_param isValidObjectId (params req !! target_param g))
  && match g with
     | UpdatePost => negb (update_rejected req)
     | DeleteComment | DeletePost => true
     end.

(** A supplied category can be cast to an [ObjectId]. *)
Definition castable (g : Guarded) (req : Request) : bool :=
  match g with
  | UpdatePost =>
      negb (truthy truthy_json (body req !! "category"))
      || truthy (fun v => if castObjectId v is Some _ then true else false)
           (body req !! "category")
  | DeleteComment | DeletePost => true
  end.

End Guarded.

(** ** Example inputs *)

Module Sample.

Definition alice : string := "aaaaaaaaaaaaaaaaaaaaaa01".
Definition bob : string := "bbbbbbbbbbbbbbbbbbbbbb02".
Definition post1 : string := "cccccccccccccccccccccc03".
Definition comment1 : string := "dddddddddddddddddddddd04".

(** A verifier that accepts two tokens, valid for thirty days from the
    epoch. *)
Definition jwt (tok : string) : option JwtPayload :=
  if String.eqb tok "tok.alice" then Some (mkJwtPayload alice 0 2592000)
  else if String.eqb tok "tok.bob" then Some (mkJwtPayload bob 0 2592000)
  else None.

Definition storedPassword (v : json) : option string :=
  match v with
  | JStr s => Some ("hash:" +:+ s)
  | _ => None
  end.

Definition is_blank (c : ascii) : bool :=
  let n := nat_of_ascii c in
  ((9 <=? n) && (n <=? 13) || (n =? 32))%nat.

Fixpoint trimStart (s : string) : string :=
  match s with
  | EmptyString => EmptyString
  | String c rest => if is_blank c then trimStart rest else s
  end.

Fixpoint trimEnd (s : string) : string :=
  match s with
  | EmptyString => EmptyString
  | String c rest =>
      match trimEnd rest with
      | EmptyString => if is_blank c then EmptyString else String c EmptyString
      | kept => String c kept
      end
  end.

(** [trim] on ASCII strings. *)
Definition trim (s : string) : string := trimEnd (trimStart s).

Definition is_hex (c : ascii) : bool :=
  let n := nat_of_ascii c in
  ((48 <=? n) && (n <=? 57) || (97 <=? n) && (n <=? 102)
   || (65 <=? n) && (n <=? 70))%nat.

(** Strings of 24 hexadecimal digits. *)
Definition isValidObjectId (v : json) : bool :=
  match v with
  | JStr s =>
      (String.length s =? 24)%nat && forallb is_hex (list_ascii_of_string s)
  | _ => false
  end.

Definition castObjectId (v : json) : option string :=
  match v with
  | JStr s => if isValidObjectId v then Some s else None
  | _ => None
  end.

Definition user_alice : User :=
  mkUser "alice" "alice@example.com" "hash:a" "user" None None.

Definition user_bob : User :=
  mkUser "bob" "bob@example.com" "hash:b" "admin" None None.

Definition the_post : Post :=
  mkPost "Hello" "First post" (Some alice) None ["intro"] false 1700000000000.

Definition the_comment : Comment :=
  mkComment post1 (Some alice) "Nice" 1700000000001.

Definition empty_store : Store := mkStore [] ∅ ∅ ∅.

(** Alice (a standard user) and Bob (an admin); a post and a comment, both
    written by Alice. *)
Definition blog : Store :=
  mkStore [] (<[alice := user_alice]> (<[bob := user_bob]> ∅))
    (<[post1 := the_post]> ∅) (<[comment1 := the_comment]> ∅).

(** The same blog after Alice's account was removed. *)
Definition blog_without_alice : Store :=
  mkStore [] (<[bob := user_bob]> ∅)
    (<[post1 := the_post]> ∅) (<[comment1 := the_comment]> ∅).

(** Alice has asked for a password reset; the token is valid for an hour. *)
Definition blog_reset_pending : Store :=
  mkStore []
    (<[alice := mkUser "alice" "alice@example.com" "hash:a" "user"
                  (Some "tok.alice") (Some 3600000)]> ∅)
    ∅ ∅.

Definition world (s : Store) : World := mkWorld s [] [].

Definition bearer (h : string) : Request := mkRequest (Some h) ∅ ∅ None.

Definition as_user (uid : string) (param id : string)
    (fields : list (string * json)) : Request :=
  mkRequest None (<[param := id]> ∅) (list_to_map fields)
    (Some (mkJwtPayload uid 0 2592000)).

End Sample.

(** * More of the code *)

(** ** [restrictToAdmin] and chained middleware *)

(** [router.post(path, mw1, mw2, handler)]: the second middleware runs on
    the request handed over by the first. *)
Definition and_then (mw1 mw2 : Request -> M Outcome) (req : Request)
    : M Outcome :=
  o <- mw1 req ;;
  match o with
  | Responded res => ret (Responded res)
  | Next req' => mw2 req'
  end.

(** [restrictToAdmin] ([middleware/authMiddleware.js], lines 45-59) *)
Definition restrictToAdmin (req : Request) : M Outcome :=
  try_catch
    (userId <- req_user_userId req ;;
     user <- User_findById userId ;;
     match user with
     | None =>
         res <- errorHandler.handleNotFoundError "User not found" None ;;
         ret (Responded res)
     | Some user =>
         if negb (String.eqb (role user) "admin") then
           res <- errorHandler.handleAuthError "Admin access required"
                    None ;;
           ret (Responded res)
         else
           _ <- errorHandler.logInfo "Admin access verified" ;;
           ret (Next req)
     end)
    (fun error =>
       res <- errorHandler.handleDatabaseError (error_message error) None ;;
       ret (Responded res)).

Section MoreHandlers.

Variable trim : string -> string.
Variable isValidObjectId : json -> bool.
Variable castObjectId : json -> option string.

(** [post.save()] of a document built by [new Post(...)]: an insertion
    under the [_id] the document was given; MongoDB rejects an [_id] that is
    already taken. *)
Definition Post_insert (id : string) (p : Post) : M unit :=
  db_call (OpPostSave id)
    (fun s =>
       match posts s !! id with
       | Some _ =>
           (Throw (mkError "MongoServerError" "E11000 duplicate key error"),
            s)
       | None =>
           (Ok tt,
            mkStore (blacklistedTokens s) (users s) (<[id := p]> (posts s))
              (comments s))
       end).

(** [createPost] ([controllers/postController.js]).  [new_id] is the [_id]
    that [new Post(...)] generates and [now] the time at which it is built
    (the default of [createdAt]); [published] defaults to [false]. *)
Definition createPost (now : Z) (new_id : string) (req : Request)
    : M Response :=
  try_catch
    (let body_title := body req !! "title" in
     let body_content := body req !! "content" in
     let body_category := body req !! "category" in
     let body_tags := body req !! "tags" in
     if negb (truthy truthy_json body_title)
        || truthy (not_a_nonblank_string trim) body_title then
       errorHandler.handleValidationError
         "Title is required and must be a non-empty string" None
     else if negb (truthy truthy_json body_content)
             || truthy (not_a_nonblank_string trim) body_content then
       errorHandler.handleValidationError
         "Content is required and must be a non-empty string" None
     else if truthy truthy_json body_category
             && negb (truthy isValidObjectId body_category) then
       errorHandler.handleValidationError "Invalid category ID" None
     else if truthy truthy_json body_tags
             && truthy not_an_array_of_strings body_tags then
       errorHandler.handleValidationError "Tags must be an array of strings"
         None
     else
       post_title <- json_trim trim (default JNull body_title) ;;
       post_content <- json_trim trim (default JNull body_content) ;;
       userId <- req_user_userId req ;;
       post_author <- assign_ObjectId castObjectId (JStr userId) ;;
       post_category <-
         (if truthy truthy_json body_category
          then assign_ObjectId castObjectId (default JNull body_category)
          else ret None) ;;
       post_tags <-
         (if truthy truthy_json body_tags
          then assign_strings (default JNull body_tags)
          else ret []) ;;
       _ <- Post_insert new_id
              (mkPost post_title post_content post_author post_category
                 post_tags false now) ;;
       _ <- Post_findById_populate new_id ;;
       _ <- errorHandler.logSuccess "Post created" ;;
       ret (mkResponse 201 "Post created successfully"))
    (fun error =>
       errorHandler.handleDatabaseError (error_message error) None).

(** [getSingleComment] ([controllers/commentController.js], lines 221-245);
    the populated comment sent back with the answer is left out of the
    response. *)
Definition getSingleComment (req : Request) : M Response :=
  try_catch
    (let commentId := params req !! "commentId" in
     if invalid_id_param isValidObjectId commentId then
       errorHandler.handleValidationError "Invalid comment ID" None
     else
       comment <- Comment_findById (default EmptyString commentId) ;;
       match comment with
       | None => errorHandler.handleNotFoundError "Comment not found" None
       | Some _ =>
           _ <- errorHandler.logSuccess "Comment retrieved" ;;
           ret (mkResponse 200 "Comment retrieved successfully")
       end)
    (fun error =>
       errorHandler.handleDatabaseError (error_message error) None).

End MoreHandlers.

(** ** [config/db.js] *)

Module Database.

(** What [connect] does besides returning. *)
Inductive Effect : Type :=
| MongooseConnect
| ConsolaInfo (msg : string)
| ConsolaSuccess (msg : string)
| ConsolaError (msg detail : string).

(** How [connect] ends: it returns the connection, or the process exits. *)
Inductive Ending (C : Type) : Type :=
| Returned (c : C)
| Exited (code : Z).
Arguments Returned {C} c.
Arguments Exited {C} code.

Section Connect.

(** The type of Mongoose connections. *)
Variable Connection : Type.

(** The singleton: [this.connection], [None] for [null]. *)
Record t : Type := mk { connection : option Connection }.

(** [new Database()] the first time [getInstance] is called. *)
Definition instance : t := mk None.

(** [connect()]; [attempt] is what [mongoose.connect(process.env.MONGO_URI)]
    yields when it is called. *)
Definition connect (attempt : Error + Connection) (db : t)
    : Ending Connection * t * list Effect :=
  match connection db with
  | Some c =>
      (Returned c, db, [ConsolaInfo "Using existing MongoDB connection"])
  | None =>
      match attempt with
      | inr c =>
          (Returned c, mk (Some c),
           [MongooseConnect; ConsolaSuccess "MongoDB connected"])
      | inl err =>
          (Exited 1, db,
           [MongooseConnect;
            ConsolaError "Database connection error:" (error_message err)])
      end
  end.

End Connect.

End Database.

(** ** Vocabulary for the further properties *)

(** A computation whose runs relate the store before and after by [R]. *)
Definition keeps {A : Type} (R : Store -> Store -> Prop) (m : M A) : Prop :=
  forall w, R (store w) (store (snd (m w))).

(** A computation out of which no exception escapes. *)
Definition answers {A : Type} (m : M A) : Prop :=
  forall w, exists a, fst (m w) = Ok a.

(** The blacklist only grows, at its end, and nothing else changes. *)
Definition blacklist_grows (s s' : Store) : Prop :=
  blacklistedTokens s `prefix_of` blacklistedTokens s'
  /\ users s' = users s /\ posts s' = posts s /\ comments s' = comments s.

(** Only the posts and the comments may change. *)
Definition credentials_kept (s s' : Store) : Prop :=
  blacklistedTokens s' = blacklistedTokens s /\ users s' = users s.

(** The request [protect] hands to the next handler. *)
Definition authenticated (req : Request) (decoded : JwtPayload) : Request :=
  mkRequest (authorization req) (params req) (body req) (Some decoded).

(** A token that verifies at time [now] (in ms) with payload [decoded]. *)
Definition verifies (jwt : string -> option JwtPayload) (now : Z)
    (tok : string) (decoded : JwtPayload) : Prop :=
  jwt tok = Some decoded /\ now / 1000 < exp decoded.


(** How [restrictToAdmin] answers the caller [uid] when the store answers
    the lookup. *)
Definition admin_gate (req : Request) (uid : string) (w : World)
    : Result Outcome * World :=
  let after evs :=
    mkWorld (store w) (tl (faults w))
      (journal w ++ EvDb (OpUserFindById uid) :: evs) in
  match users (store w) !! uid with
  | None =>
      (Ok (Responded (mkResponse 404 "Resource not found")),
       after [EvLogError "User not found" 404])
  | Some u =>
      if String.eqb (role u) "admin"
      then (Ok (Next req), after [EvLogInfo "Admin access verified"])
      else (Ok (Responded (mkResponse 401 "Unauthorized access")),
            after [EvLogError "Admin access required" 401])
  end.

Definition invalid_id_message (g : Guarded) : string :=
  match g with
  | DeleteComment => "Invalid comment ID"
  | UpdatePost | DeletePost => "Invalid post ID"
  end.


Definition set_posts (ps : gmap string Post) (s : Store) : Store :=
  mkStore (blacklistedTokens s) (users s) ps (comments s).


Section Updated.

Variable trim : string -> string.
Variable castObjectId : json -> option string.

(** The value [updatePost] stores for a string field. *)
Definition supplied_string (v : option json) (old : string) : string :=
  match v with
  | Some (JStr s) => if truthy_string s then trim s else old
  | _ => old
  end.

(** The value [updatePost] stores for the category. *)
Definition supplied_category (v : option json) (old : option string)
    : option string :=
  match v with
  | Some c => if truthy_json c then castObjectId c else old
  | None => old
  end.

(** The value [updatePost] stores for the tags. *)
Definition supplied_tags (v : option json) (old : list string)
    : list string :=
  match v with
  | Some (JArr items) =>
      flat_map (fun tag => match tag with
                           | JStr s => [s]
                           | _ => []
                           end) items
  | _ => old
  end.

(** The post [updatePost] stores in place of [p] for a valid body. *)
Definition updated_post (req : Request) (p : Post) : Post :=
  mkPost (supplied_string (body req !! "title") (title p))
    (supplied_string (body req !! "content") (content p))
    (author p)
    (supplied_category (body req !! "category") (category p))
    (supplied_tags (body req !! "tags") (tags p))
    (published p) (createdAt p).

End Updated.

(** A body field that holds a non-empty string which is not blank. *)
Definition acceptable_text (trim : string -> string) (v : option json)
    : Prop :=
  exists s, v = Some (JStr s) /\ s <> EmptyString /\ trim s <> EmptyString.

(** The part of a user record that identifies the account and its
    privileges. *)
Definition identity_of (u : User) : string * string * string :=
  (username u, email u, role u).

(** The endpoints and middleware modelled in this file. *)
Inductive Endpoint : Type :=
| EpProtect (now : Z)
| EpRestrictToAdmin
| EpSignout (now : Z)
| EpResetPassword (now : Z)
| EpCreatePost (now : Z) (new_id : string)
| EpUpdatePost
| EpDeletePost
| EpDeleteComment
| EpGetSingleComment.

Section Endpoints.

Variable jwt_payload : string -> option JwtPayload.
Variable uniqueToken : bool.
Variable storedPassword : json -> option string.
Variable trim : string -> string.
Variable isValidObjectId : json -> bool.
Variable castObjectId : json -> option string.

(** The world after an endpoint has handled a request. *)
Definition after (ep : Endpoint) (req : Request) (w : World) : World :=
  match ep with
  | EpProtect now => snd (protect jwt_payload now req w)
  | EpRestrictToAdmin => snd (restrictToAdmin req w)
  | EpSignout now => snd (signoutUser uniqueToken now req w)
  | EpResetPassword now =>
      snd (resetPassword jwt_payload storedPassword now req w)
  | EpCreatePost now new_id =>
      snd (createPost trim isValidObjectId castObjectId now new_id req w)
  | EpUpdatePost =>
      snd (updatePost trim isValidObjectId castObjectId req w)
  | EpDeletePost => snd (deletePost isValidObjectId req w)
  | EpDeleteComment => snd (deleteComment isValidObjectId req w)
  | EpGetSingleComment => snd (getSingleComment isValidObjectId req w)
  end.

End Endpoints.

(** * Properties *)

(** ** Running computations *)

Lemma run_bind {A B : Type} (m : M A) (k : A -> M B) w :
  (x <- m ;; k x) w
  = match m w with
    | (Ok a, w') => k a w'
    | (Throw e, w') => (Throw e, w')
    end.
Proof. reflexivity. Qed.

Lemma bind_ret_l {A B : Type} (a : A) (k : A -> M B) w :
  (x <- ret a ;; k x) w = k a w.
Proof. reflexivity. Qed.

Lemma run_try_catch {A : Type} (m : M A) (h : Error -> M A) w :
  try_catch m h w
  = match m w with
    | (Ok a, w') => (Ok a, w')
    | (Throw e, w') => h e w'
    end.
Proof. reflexivity. Qed.

Lemma run_db_call {A : Type} op (run : Store -> Result A * Store) w :
  db_call op run w
  = if hd false (faults w)
    then (Throw (mkError "MongoNetworkError" "store unavailable"),
          mkWorld (store w) (tl (faults w)) (journal w ++ [EvDb op]))
    else (fst (run (store w)),
          mkWorld (snd (run (store w))) (tl (faults w))
            (journal w ++ [EvDb op])).
Proof.
  unfold db_call. destruct (hd false (faults w)); [done|].
  by destruct (run (store w)).
Qed.

Lemma pure_ret {A : Type} (a : A) : pure (ret a).
Proof. by exists (Ok a). Qed.

Lemma pure_throw {A : Type} e : pure (@throw A e).
Proof. by exists (Throw e). Qed.

(** ** Strings *)

Lemma prefix_append (p s : string) :
  String.prefix p s = true -> exists t, s = p +:+ t.
Proof.
  revert s. induction p as [|c p IH]; intros s H.
  - exists s. reflexivity.
  - destruct s as [|d s]; simpl in H; [discriminate|].
    destruct (ascii_dec c d) as [->|]; [|discriminate].
    destruct (IH s H) as [t ->]. exists t. reflexivity.
Qed.

Lemma split_not_included sep s :
  includes sep s = false -> split sep s = [s].
Proof.
  induction s as [|d s IH]; simpl; intros H; [reflexivity|].
  apply orb_false_elim in H as [Hd Hs].
  rewrite Hd, (IH Hs). reflexivity.
Qed.

Lemma split_Bearer rest :
  split " " ("Bearer " +:+ rest) = "Bearer" :: split " " rest.
Proof. reflexivity. Qed.

Lemma startsWith_Bearer rest :
  startsWith "Bearer " ("Bearer " +:+ rest) = true.
Proof. destruct rest; reflexivity. Qed.

Lemma truthy_string_true s : s <> EmptyString -> truthy_string s = true.
Proof.
  intros H. unfold truthy_string.
  destruct (String.eqb_spec s EmptyString); [contradiction|reflexivity].
Qed.

(** A header made of ['Bearer '] and a token without spaces yields that
    token. *)
Lemma bearer_token_Bearer tok :
  includes " " tok = false ->
  bearer_token (Some ("Bearer " +:+ tok)) = Some tok.
Proof.
  intros H. unfold bearer_token.
  rewrite startsWith_Bearer, split_Bearer, (split_not_included _ _ H).
  reflexivity.
Qed.

Lemma bearer_token_malformed h :
  ~ bearer_form h \/ nth_error (split " " h) 1 = Some EmptyString ->
  truthy truthy_string (bearer_token (Some h)) = false.
Proof.
  intros H. unfold bearer_token.
  destruct (truthy_string h && startsWith "Bearer " h) eqn:E; [|reflexivity].
  apply andb_true_iff in E as [_ E].
  destruct H as [H|H].
  - apply prefix_append in E as [t ->].
    destruct t as [|c t]; [reflexivity|].
    exfalso. apply H. exists (String c t). split; [discriminate|reflexivity].
  - rewrite H. reflexivity.
Qed.

(** ** [protect] *)

Lemma protect_no_token jwt now req w :
  truthy truthy_string (bearer_token (authorization req)) = false ->
  protect jwt now req w = reply_missing_credential w.
Proof.
  intros H. unfold protect.
  destruct (bearer_token (authorization req)) as [tok|]; simpl in H.
  - rewrite H. reflexivity.
  - reflexivity.
Qed.

(** C9: [protect] answers [MissingCredential] whenever the Authorization
    header is absent, is not of the form [Bearer <token>] (it does not start
    with ['Bearer '], or nothing follows) or has an empty token part
    ([split(' ')[1]] is empty); the world is then left as it was but for the
    logged error: no blacklist lookup and no signature verification take
    place. *)
Theorem protect_missing_credential jwt now req w :
  match authorization req with
  | None => True
  | Some h => ~ bearer_form h \/ nth_error (split " " h) 1 = Some EmptyString
  end ->
  protect jwt now req w = reply_missing_credential w.
Proof.
  intros H. apply protect_no_token.
  destruct (authorization req) as [h|]; [|reflexivity].
  by apply bearer_token_malformed.
Qed.

Lemma protect_missing_credential_witness :
  protect Sample.jwt 1000 (Sample.bearer "Basic tok.alice")
    (Sample.world Sample.blog)
  = reply_missing_credential (Sample.world Sample.blog).
Proof.
  apply protect_missing_credential. simpl. left.
  intros (tok & _ & H). discriminate H.
Defined.

Lemma find_token_Some tok l d :
  In d l -> token d = tok ->
  exists d', List.find (fun d => String.eqb (token d) tok) l = Some d'.
Proof.
  intros Hin <-. induction l as [|x l IH]; [destruct Hin|].
  simpl. destruct (String.eqb_spec (token x) (token d)); [eauto|].
  destruct Hin as [->|Hin]; [congruence|auto].
Qed.

Lemma protect_blacklisted jwt now req w tok d :
  bearer_token (authorization req) = Some tok -> tok <> EmptyString ->
  hd false (faults w) = false ->
  In d (blacklistedTokens (store w)) -> token d = tok ->
  protect jwt now req w = reply_revoked tok w.
Proof.
  intros Htok Hne Hup Hin Hd.
  destruct (find_token_Some tok _ d Hin Hd) as [d' Hfind].
  unfold protect, reply_revoked.
  rewrite Htok, (truthy_string_true _ Hne). simpl.
  unfold try_catch, bind, BlacklistedToken_findOne, db_call.
  rewrite Hup, Hfind. simpl. rewrite <- app_assoc. reflexivity.
Qed.

(** C2: in [protect] the exact-match blacklist lookup comes before the
    signature and expiry check: for a token that has an entry in the
    blacklist and a store that answers, [protect] replies
    [RevokedCredential] whatever the verifier [jwt] says about the token
    (valid, forged or expired at [now]), and the effects performed are the
    lookup and the logged error only: [jwt.verify] is not reached. *)
Theorem protect_blacklist_precedes_verification jwt now req w tok d :
  bearer_token (authorization req) = Some tok -> tok <> EmptyString ->
  hd false (faults w) = false ->
  In d (blacklistedTokens (store w)) -> token d = tok ->
  protect jwt now req w = reply_revoked tok w
  /\ forall t,
       ~ In (EvJwtVerify t) (effects_since w (snd (protect jwt now req w))).
Proof.
  intros Htok Hne Hup Hin Hd.
  rewrite (protect_blacklisted jwt now req w tok d) by done.
  split; [reflexivity|]. intros t.
  unfold effects_since, reply_revoked. simpl. rewrite drop_app_length.
  intros [H|[H|[]]]; discriminate H.
Qed.

Lemma protect_blacklist_precedes_verification_witness :
  let w := Sample.world (blacklist_add "forged" 5000 Sample.blog) in
  Sample.jwt "forged" = None
  /\ protect Sample.jwt 1000 (Sample.bearer "Bearer forged") w
     = reply_revoked "forged" w.
Proof.
  split; [reflexivity|].
  apply (protect_blacklist_precedes_verification Sample.jwt 1000
           (Sample.bearer "Bearer forged") _ "forged"
           (mkBlacklistedToken "forged" 5000)).
  - reflexivity.
  - discriminate.
  - reflexivity.
  - simpl. left. reflexivity.
  - reflexivity.
Defined.

(** C6: the lookup does not look at [expiresAt]: a token whose blacklist
    entry expired before [now] is still answered with [RevokedCredential]. *)
Theorem protect_ignores_entry_expiry jwt now req w tok d :
  bearer_token (authorization req) = Some tok -> tok <> EmptyString ->
  hd false (faults w) = false ->
  In d (blacklistedTokens (store w)) -> token d = tok ->
  expiresAt d < now ->
  protect jwt now req w = reply_revoked tok w.
Proof.
  intros Htok Hne Hup Hin Hd _. by eapply protect_blacklisted.
Qed.

Lemma protect_ignores_entry_expiry_witness :
  let w := Sample.world (blacklist_add "tok.alice" 5 Sample.blog) in
  protect Sample.jwt 1000 (Sample.bearer "Bearer tok.alice") w
  = reply_revoked "tok.alice" w.
Proof.
  apply (protect_ignores_entry_expiry Sample.jwt 1000
           (Sample.bearer "Bearer tok.alice") _ "tok.alice"
           (mkBlacklistedToken "tok.alice" 5)).
  - reflexivity.
  - discriminate.
  - reflexivity.
  - simpl. left. reflexivity.
  - reflexivity.
  - simpl. lia.
Defined.

(** C5: when the store rejects the blacklist lookup, [protect] fails closed:
    it answers 401 ('Token verification failed'), does not call [next()]
    and performs nothing but the failed lookup and the logged error, so the
    signature is never verified. *)
Theorem protect_fails_closed jwt now req w tok :
  bearer_token (authorization req) = Some tok -> tok <> EmptyString ->
  hd false (faults w) = true ->
  protect jwt now req w = reply_store_failure tok w.
Proof.
  intros Htok Hne Hdown. unfold protect, reply_store_failure.
  rewrite Htok, (truthy_string_true _ Hne). simpl.
  unfold try_catch, bind, BlacklistedToken_findOne, db_call.
  rewrite Hdown. simpl. rewrite <- app_assoc. reflexivity.
Qed.

Lemma protect_fails_closed_witness :
  let w := mkWorld Sample.blog [true] [] in
  protect Sample.jwt 1000 (Sample.bearer "Bearer tok.alice") w
  = reply_store_failure "tok.alice" w.
Proof.
  apply (protect_fails_closed Sample.jwt 1000
           (Sample.bearer "Bearer tok.alice") _ "tok.alice").
  - reflexivity.
  - discriminate.
  - reflexivity.
Defined.

(** ** Revocation *)

Lemma addToBlacklist_store uniq now tok w :
  store (snd (addToBlacklist uniq now tok w)) = store w
  \/ store (snd (addToBlacklist uniq now tok w))
     = blacklist_add tok (now + thirty_days) (store w).
Proof.
  unfold addToBlacklist, try_catch, bind, BlacklistedToken_create, db_call.
  destruct (hd false (faults w)); simpl; [by left|].
  destruct (uniq && _); simpl; [by left|by right].
Qed.

Lemma addToBlacklist_Ok uniq now tok w w1 :
  addToBlacklist uniq now tok w = (Ok tt, w1) ->
  store w1 = blacklist_add tok (now + thirty_days) (store w).
Proof.
  unfold addToBlacklist, try_catch, bind, BlacklistedToken_create, db_call.
  destruct (hd false (faults w)); simpl; [discriminate|].
  destruct (uniq && _); simpl; [discriminate|].
  intros [= <-]. reflexivity.
Qed.

Lemma find_app_Some {A : Type} (f : A -> bool) l1 l2 x :
  List.find f l1 = Some x -> List.find f (l1 ++ l2) = Some x.
Proof.
  induction l1 as [|a l1 IH]; simpl; [discriminate|].
  destruct (f a); auto.
Qed.

Lemma find_app_false {A : Type} (f : A -> bool) l x :
  f x = false -> List.find f (l ++ [x]) = List.find f l.
Proof.
  intros H. induction l as [|a l IH]; simpl; [by rewrite H|].
  destruct (f a); auto.
Qed.

Lemma lookup_token_add tok e e' s t :
  lookup_token t (blacklist_add tok e' (blacklist_add tok e s))
  = lookup_token t (blacklist_add tok e s).
Proof.
  unfold lookup_token, blacklist_add. simpl.
  destruct (String.eqb_spec tok t) as [->|Hne].
  - destruct (List.find _ (blacklistedTokens s ++ [_])) as [d|] eqn:E.
    + by apply find_app_Some.
    + exfalso.
      assert (Hin : In (mkBlacklistedToken t e)
                      (blacklistedTokens s ++ [mkBlacklistedToken t e]))
        by (apply in_or_app; right; by left).
      pose proof (find_none _ _ E _ Hin) as Hf. simpl in Hf.
      rewrite String.eqb_refl in Hf. discriminate.
  - apply find_app_false. simpl. by apply String.eqb_neq.
Qed.

Lemma revoked_tokens_add tok e s :
  revoked_tokens (blacklist_add tok e s) = revoked_tokens s ∪ {[tok]}.
Proof.
  unfold revoked_tokens, blacklist_add. simpl.
  rewrite map_app, list_to_set_app_L. simpl. by rewrite union_empty_r_L.
Qed.

(** C7: revocation is idempotent.  After a first successful
    [addToBlacklist] of a token, a second one for the same token (at any
    later time, whether it adds a document, is rejected as a duplicate or
    fails in the store) leaves the blacklist observably as it was: every
    lookup by token finds the same entry, the set of revoked tokens is the
    same, and the other collections are untouched. *)
Theorem addToBlacklist_idempotent uniq now1 now2 tok w w1 :
  addToBlacklist uniq now1 tok w = (Ok tt, w1) ->
  let w2 := snd (addToBlacklist uniq now2 tok w1) in
  (forall t, lookup_token t (store w2) = lookup_token t (store w1))
  /\ revoked_tokens (store w2) = revoked_tokens (store w1)
  /\ users (store w2) = users (store w1)
  /\ posts (store w2) = posts (store w1)
  /\ comments (store w2) = comments (store w1).
Proof.
  intros H1 w2. apply addToBlacklist_Ok in H1.
  destruct (addToBlacklist_store uniq now2 tok w1) as [E|E];
    subst w2; rewrite E; [done|].
  rewrite H1. split; [|split]; [| |done].
  - intros t. apply lookup_token_add.
  - rewrite !revoked_tokens_add.
    by rewrite <- (assoc_L (∪)), (idemp_L (∪)).
Qed.

Lemma addToBlacklist_idempotent_witness :
  let w1 := snd (addToBlacklist false 1000 "tok.alice"
                   (Sample.world Sample.blog)) in
  let w2 := snd (addToBlacklist false 2000 "tok.alice" w1) in
  revoked_tokens (store w2) = revoked_tokens (store w1).
Proof.
  intros w1 w2.
  apply (addToBlacklist_idempotent false 1000 2000 "tok.alice"
           (Sample.world Sample.blog) w1).
  reflexivity.
Defined.

(** What the second call does to the documents themselves depends on the
    schema: without a unique index a second document is added, with one the
    call is rejected and the list is unchanged. *)
Lemma addToBlacklist_twice_documents :
  let twice (uniq : bool) :=
    blacklistedTokens
      (store (snd (addToBlacklist uniq 2000 "t"
                     (snd (addToBlacklist uniq 1000 "t"
                             (Sample.world Sample.empty_store)))))) in
  twice false = [mkBlacklistedToken "t" (1000 + thirty_days);
                 mkBlacklistedToken "t" (2000 + thirty_days)]
  /\ twice true = [mkBlacklistedToken "t" (1000 + thirty_days)].
Proof. split; reflexivity. Qed.

(** A token without spaces that was blacklisted is refused afterwards. *)
Lemma addToBlacklist_then_protect jwt uniq now now' tok w w1 req :
  addToBlacklist uniq now tok w = (Ok tt, w1) ->
  tok <> EmptyString -> includes " " tok = false ->
  authorization req = Some ("Bearer " +:+ tok) ->
  hd false (faults w1) = false ->
  protect jwt now' req w1 = reply_revoked tok w1.
Proof.
  intros H Hne Hsp Hauth Hup. apply addToBlacklist_Ok in H.
  eapply protect_blacklisted
    with (d := mkBlacklistedToken tok (now + thirty_days)); try done.
  - rewrite Hauth. by apply bearer_token_Bearer.
  - rewrite H. simpl. apply in_or_app. right. by left.
Qed.

(** C1: [signoutUser] and [protect] do not take the same token from the
    header.  With the header ['Bearer tok.alice x'], [protect] authenticates
    [tok.alice] (the piece up to the next space) while [signoutUser]
    blacklists ['tok.alice x'] (everything after ['Bearer ']); the sign-out
    is answered with 200, and the same header is accepted again. *)
Theorem signout_then_protect_not_revoked uniq :
  let req := Sample.bearer "Bearer tok.alice x" in
  let out :=
    route (protect Sample.jwt 1000) (signoutUser uniq 1000) req
      (Sample.world Sample.blog) in
  fst out = Ok (mkResponse 200 "Successfully signed out")
  /\ blacklistedTokens (store (snd out))
     = [mkBlacklistedToken "tok.alice x" (1000 + thirty_days)]
  /\ fst (protect Sample.jwt 2000 req (snd out))
     = Ok (Next (mkRequest (Some "Bearer tok.alice x") ∅ ∅
                   (Some (mkJwtPayload Sample.alice 0 2592000)))).
Proof. destruct uniq; vm_compute; auto. Qed.

(** ** Password reset *)

Ltac refused H :=
  cbv in H; injection H as <- <-; discriminate.

(** A successful [resetPassword] has verified the token, found its user
    with that very token stored, and written the user back with the new
    password and without reset token. *)
Lemma resetPassword_success jwt sp now req w res w1 :
  resetPassword jwt sp now req w = (Ok res, w1) -> status res = 200 ->
  exists tok pw decoded u hashed,
    body req !! "token" = Some (JStr tok)
    /\ tok <> EmptyString
    /\ body req !! "newPassword" = Some pw
    /\ jwt tok = Some decoded
    /\ users (store w) !! userId decoded = Some u
    /\ resetPasswordToken u = Some tok
    /\ sp pw = Some hashed
    /\ store w1 = set_user (userId decoded) (clear_reset hashed u) (store w).
Proof.
  intros H Hs. unfold resetPassword in H.
  destruct (body req !! "token") as [tokv|] eqn:Et; [|refused H].
  destruct (body req !! "newPassword") as [pw|] eqn:Ep; simpl in H.
  2:{ rewrite orb_true_r in H. refused H. }
  destruct (negb (truthy_json tokv) || negb (truthy_json pw)) eqn:Etr;
    [refused H|].
  destruct tokv as [| | | tok | |]; try refused H.
  unfold try_catch, bind, jwt_verify, emit in H. simpl in H.
  destruct (jwt tok) as [decoded|] eqn:Ej; [|refused H].
  destruct (exp decoded <=? now / 1000) eqn:Eexp; [refused H|].
  unfold User_findOne_reset, db_call in H. simpl in H.
  destruct (hd false (faults w)) eqn:F1; [refused H|].
  simpl in H.
  destruct (users (store w) !! userId decoded) as [u|] eqn:Eu;
    [|refused H].
  destruct (resetPasswordToken u) as [t|] eqn:Ert; [|refused H].
  destruct (resetPasswordExpires u) as [e|] eqn:Ere; [|refused H].
  destruct (String.eqb_spec t tok) as [->|]; simpl in H; [|refused H].
  destruct (now <? e) eqn:Elt; [|refused H].
  unfold validate_password in H.
  destruct (sp pw) as [hashed|] eqn:Esp; [|refused H].
  unfold User_save, db_call, ret in H. simpl in H.
  destruct (hd false (tl (faults w))) eqn:F2; [refused H|].
  simpl in H. injection H as <- <-.
  exists tok, pw, decoded, u, hashed. simpl.
  repeat split; try done.
  intros ->. discriminate Etr.
Qed.

Ltac answered :=
  cbv; eexists _, _; split; [reflexivity|]; simpl; done.

(** Once the stored reset token is gone, [resetPassword] with that token
    does not succeed and writes nothing. *)
Lemma resetPassword_consumed jwt sp now req w tok decoded u :
  body req !! "token" = Some (JStr tok) ->
  jwt tok = Some decoded ->
  users (store w) !! userId decoded = Some u ->
  resetPasswordToken u = None ->
  exists res w',
    resetPassword jwt sp now req w = (Ok res, w')
    /\ status res <> 200 /\ store w' = store w.
Proof.
  intros Et Ej Eu Ert. unfold resetPassword. rewrite Et.
  destruct (body req !! "newPassword") as [pw|] eqn:Ep; simpl.
  2:{ rewrite orb_true_r. answered. }
  destruct (negb (truthy_string tok) || negb (truthy_json pw)) eqn:Etr;
    [answered|].
  unfold try_catch, bind, jwt_verify, emit. simpl. rewrite Ej.
  destruct (exp decoded <=? now / 1000) eqn:Eexp; [answered|].
  unfold User_findOne_reset, db_call. simpl.
  destruct (hd false (faults w)) eqn:F1; [answered|].
  simpl. rewrite Eu, Ert. answered.
Qed.

Lemma resetPassword_consumed_reply jwt sp now req w tok decoded u :
  body req !! "token" = Some (JStr tok) -> tok <> EmptyString ->
  truthy truthy_json (body req !! "newPassword") = true ->
  jwt tok = Some decoded -> now / 1000 < exp decoded ->
  hd false (faults w) = false ->
  users (store w) !! userId decoded = Some u ->
  resetPasswordToken u = None ->
  resetPassword jwt sp now req w
  = reply_invalid_or_expired (userId decoded) tok now w.
Proof.
  intros Et Hne Ep Ej Hexp Hup Eu Ert. unfold resetPassword.
  rewrite Et, Ep. simpl. rewrite (truthy_string_true _ Hne). simpl.
  unfold try_catch, bind, jwt_verify, emit. simpl. rewrite Ej.
  replace (exp decoded <=? now / 1000) with false by (symmetry; lia).
  unfold User_findOne_reset, db_call. simpl. rewrite Hup. simpl.
  rewrite Eu, Ert. unfold reply_invalid_or_expired. simpl.
  rewrite <- !app_assoc. reflexivity.
Qed.

(** C8: a reset token is single-use.  When [resetPassword] succeeds with a
    token, the user it names is stored without reset token and without
    reset expiry; any later call with the same token (whatever the new
    password, the time and the state of the connection) does not succeed
    and writes nothing, and when the token's signature has not expired and
    the store answers, it is refused as ['Invalid or expired token']. *)
Theorem resetPassword_single_use
    jwt sp now1 now2 req1 req2 w w1 res1 tokv fs :
  body req1 !! "token" = Some tokv ->
  body req2 !! "token" = Some tokv ->
  resetPassword jwt sp now1 req1 w = (Ok res1, w1) ->
  status res1 = 200 ->
  let w1' := mkWorld (store w1) fs (journal w1) in
  exists tok decoded u,
    tokv = JStr tok /\ jwt tok = Some decoded
    /\ users (store w1) !! userId decoded = Some u
    /\ resetPasswordToken u = None /\ resetPasswordExpires u = None
    /\ (exists res2 w2,
          resetPassword jwt sp now2 req2 w1' = (Ok res2, w2)
          /\ status res2 <> 200 /\ store w2 = store w1)
    /\ (truthy truthy_json (body req2 !! "newPassword") = true ->
        now2 / 1000 < exp decoded -> hd false fs = false ->
        resetPassword jwt sp now2 req2 w1'
        = reply_invalid_or_expired (userId decoded) tok now2 w1').
Proof.
  intros E1 E2 H Hs w1'.
  destruct (resetPassword_success _ _ _ _ _ _ _ H Hs)
    as (tok & pw & decoded & u & hashed
        & Et & Hne & Ep & Ej & Eu & Ert & Esp & Ew).
  rewrite E1 in Et. injection Et as ->.
  assert (Hu : users (store w1') !! userId decoded
               = Some (clear_reset hashed u)).
  { subst w1'. simpl. rewrite Ew. simpl. apply lookup_insert_eq. }
  exists tok, decoded, (clear_reset hashed u).
  repeat split; try done.
  - destruct (resetPassword_consumed jwt sp now2 req2 w1' tok decoded
                (clear_reset hashed u) E2 Ej Hu eq_refl)
      as (res2 & w2 & Hr & Hst & Hw).
    by exists res2, w2.
  - intros Hp Hexp Hup. by eapply resetPassword_consumed_reply.
Qed.

Lemma resetPassword_single_use_witness :
  let req :=
    mkRequest None ∅
      (list_to_map [("token", JStr "tok.alice");
                    ("newPassword", JStr "s3cret")]) None in
  let w := Sample.world Sample.blog_reset_pending in
  let w1 := snd (resetPassword Sample.jwt Sample.storedPassword 1000 req w) in
  exists res2 w2,
    resetPassword Sample.jwt Sample.storedPassword 2000 req
      (mkWorld (store w1) [] (journal w1)) = (Ok res2, w2)
    /\ status res2 <> 200 /\ store w2 = store w1.
Proof.
  intros req w w1.
  destruct (resetPassword_single_use Sample.jwt Sample.storedPassword
              1000 2000 req req w w1
              (mkResponse 200 "Password reset successful")
              (JStr "tok.alice") [])
    as (tok & decoded & u & _ & _ & _ & _ & _ & Hsecond & _);
    [reflexivity | reflexivity | reflexivity | reflexivity |].
  exact Hsecond.
Defined.

(** ** Owner-or-admin authorization *)

Section GuardedProperties.

Variable trim : string -> string.
Variable isValidObjectId : json -> bool.
Variable castObjectId : json -> option string.

Lemma denied_false uid owner u :
  denied uid owner u = false <-> uid = owner \/ role u = "admin".
Proof.
  unfold denied.
  destruct (String.eqb_spec owner uid), (String.eqb_spec (role u) "admin");
    simpl; split; intros; try done; try (by left); try (by right).
  destruct H; congruence.
Qed.

Lemma trim_assignment_ok (v : option json) (old : string) :
  truthy truthy_json v && truthy (not_a_nonblank_string trim) v = false ->
  exists s, forall w,
    (if truthy truthy_json v then json_trim trim (default JNull v)
     else ret old) w = (Ok s, w).
Proof.
  destruct v as [[| b | n | s | l | l]|]; simpl; intros H; eauto.
  - destruct b; [discriminate|eauto].
  - destruct (negb (n =? 0)); [discriminate|eauto].
  - destruct (truthy_string s); eauto.
  - discriminate.
  - discriminate.
Qed.

Lemma category_assignment_ok (v : option json) old :
  negb (truthy truthy_json v)
  || truthy (fun v => if castObjectId v is Some _ then true else false) v
     = true ->
  exists c, forall w,
    (if truthy truthy_json v
     then assign_ObjectId castObjectId (default JNull v)
     else ret old) w = (Ok c, w).
Proof.
  destruct v as [v|]; simpl; [|eauto].
  destruct (truthy_json v); simpl; [|eauto].
  unfold assign_ObjectId. destruct (castObjectId v); [eauto|discriminate].
Qed.

Lemma tags_assignment_ok (v : option json) old :
  truthy truthy_json v && truthy not_an_array_of_strings v = false ->
  exists l, forall w,
    (if truthy truthy_json v then assign_strings (default JNull v)
     else ret old) w = (Ok l, w).
Proof.
  destruct v as [[| b | n | s | l | l]|]; simpl; intros H; eauto.
  - destruct b; [discriminate|eauto].
  - destruct (negb (n =? 0)); [discriminate|eauto].
  - destruct (truthy_string s); [discriminate|eauto].
  - rewrite H. eauto.
  - discriminate.
Qed.

Ltac finished :=
  cbn; eexists _, _, _; split; [reflexivity|];
  simpl; rewrite <- !app_assoc; simpl; split; [reflexivity|done].

(** The run of a guarded handler once the request has passed validation
    and the target resource exists with author [owner], when the store
    answers: the resource and then the caller's user record are loaded,
    and only then is the caller compared with the owner. *)
Lemma guarded_run g req w decoded id owner :
  user req = Some decoded ->
  params req !! target_param g = Some id ->
  reaches_authorization trim isValidObjectId g req = true ->
  castable castObjectId g req = true ->
  target_author g id (store w) = Some (Some owner) ->
  faults w = [] ->
  exists res w' evs,
    guarded_handler trim isValidObjectId castObjectId g req w = (Ok res, w')
    /\ journal w'
       = journal w ++ EvDb (target_find g id)
           :: EvDb (OpUserFindById (userId decoded)) :: evs
    /\ match users (store w) !! userId decoded with
       | None =>
           res = mkResponse 404 "Resource not found"
           /\ evs = [EvLogError "User not found" 404]
           /\ store w' = store w
       | Some u =>
           if denied (userId decoded) owner u then
             res = mkResponse 401 "Unauthorized access"
             /\ evs = [EvLogError (denial g) 401]
             /\ store w' = store w
           else res = mkResponse 200 (success_message g)
       end.
Proof.
  intros Hu Hid Hv Hc Ha Hf.
  apply andb_true_iff in Hv as [Hv1 Hv2]. apply negb_true_iff in Hv1.
  destruct g; simpl in *.
  - unfold deleteComment. rewrite Hid in *. rewrite Hv1.
    rewrite run_try_catch, run_bind. unfold req_user_userId. rewrite Hu.
    simpl. rewrite run_bind. unfold Comment_findById.
    rewrite run_db_call, Hf. simpl.
    destruct (comments (store w) !! id) as [c|]; [|discriminate].
    simpl in Ha. injection Ha as Ha.
    rewrite run_bind. unfold User_findById. rewrite run_db_call. simpl.
    destruct (users (store w) !! userId decoded) as [u|]; [|finished].
    rewrite Ha. simpl. rewrite bind_ret_l. unfold denied.
    destruct (negb _ && negb _); finished.
  - apply negb_true_iff in Hv2. unfold update_rejected in Hv2.
    apply orb_false_elim in Hv2 as [Hv2 Ht4].
    apply orb_false_elim in Hv2 as [Hv2 Ht3].
    apply orb_false_elim in Hv2 as [Ht1 Ht2].
    unfold updatePost. rewrite Hid in *.
    rewrite run_try_catch, run_bind. unfold req_user_userId. rewrite Hu.
    simpl. rewrite Hv1, Ht1, Ht2, Ht3, Ht4.
    rewrite run_bind. unfold Post_findById.
    rewrite run_db_call, Hf. simpl.
    destruct (posts (store w) !! id) as [p|]; [|discriminate].
    simpl in Ha. injection Ha as Ha.
    rewrite run_bind. unfold User_findById. rewrite run_db_call. simpl.
    destruct (users (store w) !! userId decoded) as [u|]; [|finished].
    rewrite Ha. simpl. rewrite bind_ret_l. unfold denied.
    destruct (negb _ && negb _); [finished|].
    destruct (trim_assignment_ok _ (title p) Ht1) as [s1 E1].
    destruct (trim_assignment_ok _ (content p) Ht2) as [s2 E2].
    destruct (category_assignment_ok _ (category p) Hc) as [s3 E3].
    destruct (tags_assignment_ok _ (tags p) Ht4) as [s4 E4].
    rewrite run_bind, E1, run_bind, E2, run_bind, E3, run_bind, E4.
    finished.
  - unfold deletePost. rewrite Hid in *. rewrite Hv1.
    rewrite run_try_catch, run_bind. unfold req_user_userId. rewrite Hu.
    simpl. rewrite run_bind. unfold Post_findById.
    rewrite run_db_call, Hf. simpl.
    destruct (posts (store w) !! id) as [p|]; [|discriminate].
    simpl in Ha. injection Ha as Ha.
    rewrite run_bind. unfold User_findById. rewrite run_db_call. simpl.
    destruct (users (store w) !! userId decoded) as [u|]; [|finished].
    rewrite Ha. simpl. rewrite bind_ret_l. unfold denied.
    destruct (negb _ && negb _); finished.
Qed.

(** C3 (as the code has it): in [deleteComment], [updatePost] and
    [deletePost], for a request that passes validation on an existing
    resource written by [owner], and provided the caller's user record
    exists in the store, the request succeeds if and only if the caller is
    the owner or the role found in that record, as stored at the time of the
    request (the token carries no role), is ['admin']; otherwise it is
    answered 401 'Not authorized', nothing is written, and the effects are
    the two lookups and the logged error. *)
Theorem owner_or_admin_with_identity g req w decoded id owner u :
  user req = Some decoded ->
  params req !! target_param g = Some id ->
  reaches_authorization trim isValidObjectId g req = true ->
  castable castObjectId g req = true ->
  target_author g id (store w) = Some (Some owner) ->
  users (store w) !! userId decoded = Some u ->
  faults w = [] ->
  exists res w',
    guarded_handler trim isValidObjectId castObjectId g req w = (Ok res, w')
    /\ (status res = 200 <-> userId decoded = owner \/ role u = "admin")
    /\ (~ (userId decoded = owner \/ role u = "admin") ->
        res = mkResponse 401 "Unauthorized access"
        /\ store w' = store w
        /\ journal w'
           = journal w ++ [EvDb (target_find g id);
                           EvDb (OpUserFindById (userId decoded));
                           EvLogError (denial g) 401]).
Proof.
  intros Hu Hid Hv Hc Ha Hrec Hf.
  destruct (guarded_run g req w decoded id owner Hu Hid Hv Hc Ha Hf)
    as (res & w' & evs & Hrun & Hj & Hres).
  rewrite Hrec in Hres. exists res, w'. split; [exact Hrun|].
  pose proof (denied_false (userId decoded) owner u) as Hd.
  destruct (denied (userId decoded) owner u).
  - destruct Hres as (-> & -> & Hst). split; [split|].
    + discriminate.
    + intros H. apply Hd in H. discriminate.
    + intros _. done.
  - subst res. split; [split|].
    + intros _. by apply Hd.
    + done.
    + intros H. exfalso. apply H. by apply Hd.
Qed.

(** C4 (as the code has it): the owner match is not a short cut.  For a
    caller who is the owner of the target resource, the handlers still load
    the caller's user record right after the resource and before the
    comparison; the owner succeeds, whatever the role, when that record
    exists, and is answered 404 'User not found', with nothing written, when
    it does not. *)
Theorem owner_needs_identity_record g req w decoded id :
  user req = Some decoded ->
  params req !! target_param g = Some id ->
  reaches_authorization trim isValidObjectId g req = true ->
  castable castObjectId g req = true ->
  target_author g id (store w) = Some (Some (userId decoded)) ->
  faults w = [] ->
  exists res w' evs,
    guarded_handler trim isValidObjectId castObjectId g req w = (Ok res, w')
    /\ journal w'
       = journal w ++ EvDb (target_find g id)
           :: EvDb (OpUserFindById (userId decoded)) :: evs
    /\ match users (store w) !! userId decoded with
       | Some _ => res = mkResponse 200 (success_message g)
       | None =>
           res = mkResponse 404 "Resource not found"
           /\ evs = [EvLogError "User not found" 404]
           /\ store w' = store w
       end.
Proof.
  intros Hu Hid Hv Hc Ha Hf.
  destruct (guarded_run g req w decoded id _ Hu Hid Hv Hc Ha Hf)
    as (res & w' & evs & Hrun & Hj & Hres).
  exists res, w', evs. split; [exact Hrun|]. split; [exact Hj|].
  destruct (users (store w) !! userId decoded) as [u|]; [|exact Hres].
  unfold denied in Hres. rewrite String.eqb_refl in Hres. exact Hres.
Qed.

(** ** The frame of [updatePost] *)

Lemma update_frame_refl req pid p s :
  posts s !! pid = Some p -> update_frame req pid p s s.
Proof. intros H. exists p. repeat split; done. Qed.

Lemma pure_json_trim v : pure (json_trim trim v).
Proof. destruct v; apply pure_ret || apply pure_throw. Qed.

Lemma pure_assign_ObjectId v : pure (assign_ObjectId castObjectId v).
Proof.
  unfold assign_ObjectId.
  destruct (castObjectId v); apply pure_ret || apply pure_throw.
Qed.

Lemma pure_assign_strings v : pure (assign_strings v).
Proof.
  destruct v; simpl; try apply pure_throw.
  destruct (existsb _ _); apply pure_ret || apply pure_throw.
Qed.

(** An assignment [field = supplied ? m : old] either fails or yields a
    value, which is the old one when nothing was supplied; it does not touch
    the world. *)
Lemma assignment_cases {A : Type} (supplied : bool) (m : M A) (old : A) w :
  pure m ->
  exists r,
    (if supplied then m else ret old) w = (r, w)
    /\ (supplied = false -> r = Ok old).
Proof.
  intros [r Hr]. destruct supplied.
  - exists r. split; [apply Hr|discriminate].
  - exists (Ok old). split; done.
Qed.

Ltac unchanged := simpl; apply update_frame_refl; assumption.

Ltac assignment v H :=
  match goal with
  | |- context [(if ?c then ?m else ret ?old) ?W] =>
      let r := fresh "r" in
      let E := fresh "E" in
      destruct (assignment_cases c m old W) as (r & E & H);
      [auto using pure_json_trim, pure_assign_ObjectId, pure_assign_strings|];
      rewrite E; clear E; destruct r as [v|]
  end.

(** C10: whatever the request and its outcome, [updatePost] keeps the
    [author], [createdAt] (and [published]) of the post it addresses, leaves
    [title], [content], [category] and [tags] as they were when the body
    does not supply them or supplies a falsy value, and changes nothing else
    in the store. *)
Theorem updatePost_frame req w pid p :
  params req !! "postId" = Some pid ->
  posts (store w) !! pid = Some p ->
  update_frame req pid p (store w)
    (store (snd (updatePost trim isValidObjectId castObjectId req w))).
Proof.
  intros Hpid Hp. unfold updatePost. rewrite Hpid. simpl.
  rewrite run_try_catch, run_bind. unfold req_user_userId.
  destruct (user req) as [decoded|]; [|unchanged].
  simpl.
  destruct (invalid_id_param _ _); [unchanged|].
  destruct (_ && _); [unchanged|].
  destruct (_ && _); [unchanged|].
  destruct (_ && _); [unchanged|].
  destruct (_ && _); [unchanged|].
  rewrite run_bind. unfold Post_findById. rewrite run_db_call.
  destruct (hd false (faults w)); [unchanged|].
  simpl. rewrite Hp.
  rewrite run_bind. unfold User_findById. rewrite run_db_call. simpl.
  destruct (hd false (tl (faults w))); [unchanged|].
  simpl.
  destruct (users (store w) !! userId decoded) as [u|]; [|unchanged].
  rewrite run_bind.
  destruct (author p) as [a|] eqn:Ea; simpl; [|unchanged].
  destruct (_ && _); [unchanged|].
  rewrite run_bind. assignment t Ht; [|unchanged].
  rewrite run_bind. assignment c Hc; [|unchanged].
  rewrite run_bind. assignment cat Hcat; [|unchanged].
  rewrite run_bind. assignment tgs Htgs; [|unchanged].
  rewrite run_bind. unfold Post_save. rewrite run_db_call. simpl.
  destruct (hd false (tl (tl (faults w)))); [unchanged|].
  assert (Hframe : update_frame req pid p (store w)
            (mkStore (blacklistedTokens (store w)) (users (store w))
               (<[pid := mkPost t c (Some a) cat tgs (published p)
                           (createdAt p)]> (posts (store w)))
               (comments (store w)))).
  { eexists. simpl. rewrite lookup_insert_eq.
    repeat split; simpl; try done.
    - intros Hf. specialize (Ht Hf). congruence.
    - intros Hf. specialize (Hc Hf). congruence.
    - intros Hf. specialize (Hcat Hf). congruence.
    - intros Hf. specialize (Htgs Hf). congruence.
    - intros id Hne. by rewrite lookup_insert_ne. }
  rewrite run_bind. unfold Post_findById_populate.
  rewrite run_db_call. simpl.
  destruct (hd false (tl (tl (tl (faults w))))); simpl; exact Hframe.
Qed.

End GuardedProperties.

(** ** The guarded handlers on the example blog *)

(** Bob, an admin who did not write the post, may delete it. *)
Lemma owner_or_admin_with_identity_witness :
  let req := Sample.as_user Sample.bob "postId" Sample.post1 [] in
  let w := Sample.world Sample.blog in
  exists res w',
    guarded_handler Sample.trim Sample.isValidObjectId Sample.castObjectId
      DeletePost req w = (Ok res, w')
    /\ (status res = 200
        <-> Sample.bob = Sample.alice \/ role Sample.user_bob = "admin")
    /\ (~ (Sample.bob = Sample.alice \/ role Sample.user_bob = "admin") ->
        res = mkResponse 401 "Unauthorized access"
        /\ store w' = store w
        /\ journal w'
           = journal w ++ [EvDb (OpPostFindById Sample.post1);
                           EvDb (OpUserFindById Sample.bob);
                           EvLogError (denial DeletePost) 401]).
Proof.
  intros req w.
  apply (owner_or_admin_with_identity Sample.trim Sample.isValidObjectId
           Sample.castObjectId DeletePost req w
           (mkJwtPayload Sample.bob 0 2592000) Sample.post1 Sample.alice
           Sample.user_bob); reflexivity.
Defined.

(** Alice wrote the post, but her account is gone: her request to delete
    it is answered 404 and the post stays. *)
Lemma owner_without_record_is_refused :
  let req := Sample.as_user Sample.alice "postId" Sample.post1 [] in
  let w := Sample.world Sample.blog_without_alice in
  let out := deletePost Sample.isValidObjectId req w in
  option_map author (posts (store w) !! Sample.post1)
  = Some (Some Sample.alice)
  /\ fst out = Ok (mkResponse 404 "Resource not found")
  /\ fst out <> Ok (mkResponse 200 "Post deleted successfully")
  /\ posts (store (snd out)) !! Sample.post1 = Some Sample.the_post.
Proof. vm_compute. repeat split. discriminate. Qed.

(** Alice deletes her own comment: her user record is loaded all the same;
    once her account is gone the same request is answered 404. *)
Lemma owner_match_is_not_a_short_cut :
  let req := Sample.as_user Sample.alice "commentId" Sample.comment1 [] in
  option_map comment_author (comments Sample.blog !! Sample.comment1)
  = Some (Some Sample.alice)
  /\ journal (snd (deleteComment Sample.isValidObjectId req
                     (Sample.world Sample.blog)))
     = [EvDb (OpCommentFindById Sample.comment1);
        EvDb (OpUserFindById Sample.alice);
        EvDb (OpCommentDeleteOne Sample.comment1);
        EvLogSuccess "Comment deleted"]
  /\ fst (deleteComment Sample.isValidObjectId req
            (Sample.world Sample.blog_without_alice))
     = Ok (mkResponse 404 "Resource not found").
Proof. vm_compute. repeat split. Qed.

Lemma owner_needs_identity_record_witness :
  let req := Sample.as_user Sample.alice "commentId" Sample.comment1 [] in
  let w := Sample.world Sample.blog_without_alice in
  exists res w' evs,
    guarded_handler Sample.trim Sample.isValidObjectId Sample.castObjectId
      DeleteComment req w = (Ok res, w')
    /\ journal w'
       = journal w ++ EvDb (OpCommentFindById Sample.comment1)
           :: EvDb (OpUserFindById Sample.alice) :: evs
    /\ res = mkResponse 404 "Resource not found"
    /\ evs = [EvLogError "User not found" 404]
    /\ store w' = store w.
Proof.
  intros req w.
  apply (owner_needs_identity_record Sample.trim Sample.isValidObjectId
           Sample.castObjectId DeleteComment req w
           (mkJwtPayload Sample.alice 0 2592000) Sample.comment1);
    reflexivity.
Defined.

(** Alice retitles her post and sends an empty [content]: the title is
    trimmed and stored, everything else stays. *)
Lemma updatePost_frame_witness :
  let req :=
    Sample.as_user Sample.alice "postId" Sample.post1
      [("title", JStr "  New title "); ("content", JStr EmptyString)] in
  let w := Sample.world Sample.blog in
  update_frame req Sample.post1 Sample.the_post (store w)
    (store (snd (updatePost Sample.trim Sample.isValidObjectId
                   Sample.castObjectId req w))).
Proof.
  intros req w.
  apply (updatePost_frame Sample.trim Sample.isValidObjectId
           Sample.castObjectId req w Sample.post1 Sample.the_post);
    reflexivity.
Defined.

Example updatePost_retitles :
  let req :=
    Sample.as_user Sample.alice "postId" Sample.post1
      [("title", JStr "  New title "); ("content", JStr EmptyString)] in
  let out :=
    updatePost Sample.trim Sample.isValidObjectId Sample.castObjectId req
      (Sample.world Sample.blog) in
  fst out = Ok (mkResponse 200 "Post updated successfully")
  /\ posts (store (snd out)) !! Sample.post1
     = Some (mkPost "New title" "First post" (Some Sample.alice) None
               ["intro"] false 1700000000000).
Proof. vm_compute. split; reflexivity. Qed.

(** * Further properties *)

(** ** What a computation leaves in the store *)

Section Keeps.

Context {R : Store -> Store -> Prop} `{!PreOrder R}.

Lemma keeps_ret {A : Type} (a : A) : keeps R (ret a).
Proof. intros w. simpl. reflexivity. Qed.

Lemma keeps_throw {A : Type} (e : Error) : keeps R (@throw A e).
Proof. intros w. simpl. reflexivity. Qed.

Lemma keeps_emit ev : keeps R (emit ev).
Proof. intros w. simpl. reflexivity. Qed.

Lemma keeps_bind {A B : Type} (m : M A) (k : A -> M B) :
  keeps R m -> (forall a, keeps R (k a)) -> keeps R (x <- m ;; k x).
Proof.
  intros Hm Hk w. unfold bind. specialize (Hm w).
  destruct (m w) as [[a|e] w']; simpl in *; [|exact Hm].
  etransitivity; [exact Hm|apply Hk].
Qed.

Lemma keeps_try_catch {A : Type} (m : M A) (h : Error -> M A) :
  keeps R m -> (forall e, keeps R (h e)) -> keeps R (try_catch m h).
Proof.
  intros Hm Hh w. unfold try_catch. specialize (Hm w).
  destruct (m w) as [[a|e] w']; simpl in *; [exact Hm|].
  etransitivity; [exact Hm|apply Hh].
Qed.

Lemma keeps_db_call {A : Type} op (run : Store -> Result A * Store) :
  (forall s, R s (snd (run s))) -> keeps R (db_call op run).
Proof.
  intros Hrun w. rewrite run_db_call.
  destruct (hd false (faults w)); simpl; [reflexivity|apply Hrun].
Qed.

End Keeps.

Lemma answers_ret {A : Type} (a : A) : answers (ret a).
Proof. intros w. by exists a. Qed.

Lemma answers_bind {A B : Type} (m : M A) (k : A -> M B) :
  answers m -> (forall a, answers (k a)) -> answers (x <- m ;; k x).
Proof.
  intros Hm Hk w. unfold bind. destruct (Hm w) as [a Ha].
  destruct (m w) as [r w']. simpl in Ha. subst r. apply Hk.
Qed.

Lemma answers_try_catch {A : Type} (m : M A) (h : Error -> M A) :
  (forall e, answers (h e)) -> answers (try_catch m h).
Proof.
  intros Hh w. unfold try_catch.
  destruct (m w) as [[a|e] w']; [by exists a|apply Hh].
Qed.

Lemma answers_handleError error code msg :
  answers (errorHandler.handleError error code msg).
Proof. intros w. by eexists. Qed.

#[local] Instance blacklist_grows_preorder : PreOrder blacklist_grows.
Proof.
  split.
  - intros s. by repeat split.
  - intros s1 s2 s3 (Hb & Hu & Hp & Hc) (Hb' & Hu' & Hp' & Hc').
    repeat split; [by etransitivity|congruence|congruence|congruence].
Qed.

#[local] Instance credentials_kept_preorder : PreOrder credentials_kept.
Proof.
  split.
  - intros s. by split.
  - intros s1 s2 s3 [Hb Hu] [Hb' Hu']. split; congruence.
Qed.

Create HintDb handlers.

#[local] Hint Unfold
  errorHandler.handleError errorHandler.handleValidationError
  errorHandler.handleAuthError errorHandler.handleNotFoundError
  errorHandler.handleDatabaseError errorHandler.logSuccess
  errorHandler.logInfo req_user_userId jwt_verify BlacklistedToken_findOne
  BlacklistedToken_create User_findById User_findOne_reset User_save
  validate_password json_trim assign_ObjectId assign_strings
  ObjectId_toString Post_findById Post_save Post_deleteOne
  Post_findById_populate Comment_findById Comment_deleteOne Post_insert
  : handlers.

(** One step of a proof that a handler keeps a relation: follow the
    structure of the computation down to its store operations. *)
Ltac keeps_step :=
  lazymatch goal with
  | |- keeps _ (try_catch _ _) => apply keeps_try_catch
  | |- keeps _ (bind _ _) => apply keeps_bind
  | |- keeps _ (ret _) => apply keeps_ret
  | |- keeps _ (throw _) => apply keeps_throw
  | |- keeps _ (emit _) => apply keeps_emit
  | |- keeps _ (db_call _ _) => apply keeps_db_call
  | |- keeps _ (if ?b then _ else _) => destruct b
  | |- keeps _ (match ?x with _ => _ end) => destruct x
  | |- forall _, _ => intro
  | |- keeps _ _ =>
      first [progress cbv zeta | progress autounfold with handlers]
  end.

Ltac keeps_all := repeat keeps_step; simpl.

Lemma protect_keeps jwt now req : keeps eq (protect jwt now req).
Proof. unfold protect. keeps_all. reflexivity. Qed.

Lemma restrictToAdmin_keeps req : keeps eq (restrictToAdmin req).
Proof. unfold restrictToAdmin. keeps_all. reflexivity. Qed.

Lemma getSingleComment_keeps isValid req :
  keeps eq (getSingleComment isValid req).
Proof. unfold getSingleComment. keeps_all. reflexivity. Qed.

Lemma addToBlacklist_keeps uniq now tok :
  keeps blacklist_grows (addToBlacklist uniq now tok).
Proof.
  unfold addToBlacklist.
  keeps_all. destruct (uniq && _); simpl; [reflexivity|].
  repeat split. by eexists.
Qed.

Lemma signoutUser_keeps uniq now req :
  keeps blacklist_grows (signoutUser uniq now req).
Proof.
  unfold signoutUser. repeat keeps_step; try apply addToBlacklist_keeps.
Qed.

(** ** [protect] and [restrictToAdmin] *)

Lemma protect_run_token jwt now req w tok :
  bearer_token (authorization req) = Some tok -> tok <> EmptyString ->
  hd false (faults w) = false ->
  lookup_token tok (store w) = None ->
  protect jwt now req w
  = let w1 := mkWorld (store w) (tl (faults w))
                (journal w ++ [EvDb (OpBlacklistFindOne tok);
                               EvJwtVerify tok]) in
    match jwt tok with
    | None =>
        (Ok (Responded (mkResponse 401 "Token verification failed")),
         mkWorld (store w) (tl (faults w))
           (journal w1 ++ [EvLogError "invalid token" 401]))
    | Some decoded =>
        if exp decoded <=? now / 1000 then
          (Ok (Responded (mkResponse 401 "Token verification failed")),
           mkWorld (store w) (tl (faults w))
             (journal w1 ++ [EvLogError "jwt expired" 401]))
        else
          (Ok (Next (authenticated req decoded)),
           mkWorld (store w) (tl (faults w))
             (journal w1 ++ [EvLogInfo "Token verified"]))
    end.
Proof.
  intros Htok Hne Hup Hfree. unfold protect.
  rewrite Htok, (truthy_string_true _ Hne). simpl.
  unfold try_catch, bind, BlacklistedToken_findOne, db_call, jwt_verify.
  unfold lookup_token in Hfree. rewrite Hup, Hfree. simpl.
  destruct (jwt tok) as [decoded|]; [destruct (exp decoded <=? now / 1000)|];
    cbn; rewrite <- !app_assoc; reflexivity.
Qed.

(** [protect] lets a request through only after it took a non-empty token
    from the header, found no blacklist entry for it and verified it. *)
Lemma protect_Next_inv jwt now req w req' :
  fst (protect jwt now req w) = Ok (Next req') ->
  exists tok decoded,
    bearer_token (authorization req) = Some tok /\ tok <> EmptyString
    /\ hd false (faults w) = false
    /\ lookup_token tok (store w) = None
    /\ verifies jwt now tok decoded
    /\ req' = authenticated req decoded.
Proof.
  unfold protect.
  destruct (bearer_token (authorization req)) as [tok|] eqn:Htok;
    [|discriminate].
  destruct (truthy_string tok) eqn:Hne; simpl; [|discriminate].
  assert (tok <> EmptyString) by (intros ->; discriminate Hne).
  unfold try_catch, bind, BlacklistedToken_findOne, db_call, jwt_verify.
  destruct (hd false (faults w)) eqn:Hup; simpl; [discriminate|].
  fold (lookup_token tok (store w)).
  destruct (lookup_token tok (store w)) eqn:Hfree; simpl; [discriminate|].
  destruct (jwt tok) as [decoded|] eqn:Hjwt; simpl; [|discriminate].
  destruct (exp decoded <=? now / 1000) eqn:Hexp; simpl; [discriminate|].
  intros [= <-]. exists tok, decoded. repeat split; try done.
  by apply Z.leb_gt.
Qed.

Lemma protect_verified jwt now req w tok decoded :
  bearer_token (authorization req) = Some tok -> tok <> EmptyString ->
  hd false (faults w) = false ->
  lookup_token tok (store w) = None ->
  verifies jwt now tok decoded ->
  protect jwt now req w
  = (Ok (Next (authenticated req decoded)),
     mkWorld (store w) (tl (faults w))
       (journal w ++ [EvDb (OpBlacklistFindOne tok); EvJwtVerify tok;
                      EvLogInfo "Token verified"])).
Proof.
  intros Htok Hne Hup Hfree [Hjwt Hexp].
  rewrite (protect_run_token jwt now req w tok) by done.
  simpl. rewrite Hjwt.
  destruct (Z.leb_spec (exp decoded) (now / 1000)) as [Hle|_]; [lia|].
  rewrite <- app_assoc. reflexivity.
Qed.

(** X1: a request whose bearer token has no blacklist entry and verifies at
    the time of the request is let through, with the decoded payload as
    [req.user]; the effects are the lookup, the verification and one info
    log entry. *)
Theorem protect_authenticates jwt now req w tok decoded :
  bearer_token (authorization req) = Some tok -> tok <> EmptyString ->
  hd false (faults w) = false ->
  lookup_token tok (store w) = None ->
  verifies jwt now tok decoded ->
  protect jwt now req w
  = (Ok (Next (authenticated req decoded)),
     mkWorld (store w) (tl (faults w))
       (journal w ++ [EvDb (OpBlacklistFindOne tok); EvJwtVerify tok;
                      EvLogInfo "Token verified"])).
Proof. apply protect_verified. Qed.

Lemma protect_authenticates_witness :
  fst (protect Sample.jwt 1000 (Sample.bearer "Bearer tok.bob")
         (Sample.world Sample.blog))
  = Ok (Next (authenticated (Sample.bearer "Bearer tok.bob")
                (mkJwtPayload Sample.bob 0 2592000))).
Proof.
  rewrite (protect_authenticates Sample.jwt 1000
             (Sample.bearer "Bearer tok.bob") (Sample.world Sample.blog)
             "tok.bob" (mkJwtPayload Sample.bob 0 2592000)).
  - reflexivity.
  - reflexivity.
  - discriminate.
  - reflexivity.
  - reflexivity.
  - split; reflexivity.
Defined.

(** X2: whenever [protect] calls [next()], the header held a non-empty
    token, that token had no blacklist entry and verified at the time of
    the request, and [req.user] is its payload. *)
Theorem protect_sound jwt now req w req' :
  fst (protect jwt now req w) = Ok (Next req') ->
  exists tok decoded,
    bearer_token (authorization req) = Some tok /\ tok <> EmptyString
    /\ lookup_token tok (store w) = None
    /\ verifies jwt now tok decoded
    /\ req' = authenticated req decoded.
Proof.
  intros H.
  destruct (protect_Next_inv jwt now req w req' H)
    as (tok & decoded & Htok & Hne & _ & Hfree & Hv & Hreq).
  by exists tok, decoded.
Qed.

Lemma protect_sound_witness :
  exists tok decoded,
    bearer_token (Some "Bearer tok.bob") = Some tok /\ tok <> EmptyString
    /\ lookup_token tok Sample.blog = None
    /\ verifies Sample.jwt 1000 tok decoded
    /\ authenticated (Sample.bearer "Bearer tok.bob")
         (mkJwtPayload Sample.bob 0 2592000)
       = authenticated (Sample.bearer "Bearer tok.bob") decoded.
Proof.
  apply (protect_sound Sample.jwt 1000 (Sample.bearer "Bearer tok.bob")
           (Sample.world Sample.blog)).
  reflexivity.
Defined.



Lemma restrictToAdmin_Next_inv req w req' :
  fst (restrictToAdmin req w) = Ok (Next req') ->
  req' = req
  /\ exists decoded u,
       user req = Some decoded
       /\ users (store w) !! userId decoded = Some u
       /\ role u = "admin".
Proof.
  unfold restrictToAdmin. rewrite run_try_catch, run_bind.
  unfold req_user_userId.
  destruct (user req) as [decoded|]; [|discriminate]. simpl.
  rewrite run_bind. unfold User_findById. rewrite run_db_call.
  destruct (hd false (faults w)); [discriminate|]. simpl.
  destruct (users (store w) !! userId decoded) as [u|] eqn:Hu;
    [|discriminate].
  destruct (String.eqb_spec (role u) "admin") as [Hrole|]; simpl;
    [|discriminate].
  intros [= <-]. split; [reflexivity|]. by exists decoded, u.
Qed.

(** X4: [restrictToAdmin] calls [next()] only for a caller whose user
    record exists in the store with role ['admin'] at the time of the
    request; the request is handed on unchanged. *)
Theorem restrictToAdmin_sound req w req' :
  fst (restrictToAdmin req w) = Ok (Next req') ->
  req' = req
  /\ exists decoded u,
       user req = Some decoded
       /\ users (store w) !! userId decoded = Some u
       /\ role u = "admin".
Proof. apply restrictToAdmin_Next_inv. Qed.

Lemma restrictToAdmin_sound_witness :
  let req := Sample.as_user Sample.bob "categoryId" Sample.post1 [] in
  req = req
  /\ exists decoded u,
       user req = Some decoded
       /\ users Sample.blog !! userId decoded = Some u
       /\ role u = "admin".
Proof.
  intros req.
  apply (restrictToAdmin_sound req (Sample.world Sample.blog) req).
  reflexivity.
Defined.

(** X5: for an authenticated caller, [restrictToAdmin] answers 500 when the
    store rejects the lookup and otherwise decides on the stored record
    alone: 404 when there is none, 401 'Admin access required' when its role
    is not ['admin'], [next()] when it is.  Nothing is written. *)
Theorem restrictToAdmin_outcome req w decoded :
  user req = Some decoded ->
  restrictToAdmin req w
  = if hd false (faults w) then
      (Ok (Responded (mkResponse 500 "Database error occurred")),
       mkWorld (store w) (tl (faults w))
         (journal w ++ [EvDb (OpUserFindById (userId decoded));
                        EvLogError "store unavailable" 500]))
    else admin_gate req (userId decoded) w.
Proof.
  intros Hu. unfold restrictToAdmin, admin_gate.
  rewrite run_try_catch, run_bind. unfold req_user_userId. rewrite Hu.
  simpl. rewrite run_bind. unfold User_findById. rewrite run_db_call.
  destruct (hd false (faults w)); simpl.
  { cbn. by rewrite <- app_assoc. }
  destruct (users (store w) !! userId decoded) as [u|].
  - destruct (String.eqb (role u) "admin"); cbn;
      by rewrite <- app_assoc.
  - cbn. by rewrite <- app_assoc.
Qed.

Lemma restrictToAdmin_outcome_witness :
  let req := Sample.as_user Sample.alice "categoryId" Sample.post1 [] in
  fst (restrictToAdmin req (Sample.world Sample.blog))
  = Ok (Responded (mkResponse 401 "Unauthorized access")).
Proof.
  intros req.
  rewrite (restrictToAdmin_outcome req (Sample.world Sample.blog)
             (mkJwtPayload Sample.alice 0 2592000)).
  - reflexivity.
  - reflexivity.
Defined.

(** X6: an admin-only route ([protect], then [restrictToAdmin]) reaches its
    handler only with a token that has no blacklist entry and verifies, for
    a caller stored with role ['admin']; the role is the one in the store at
    the time of the request. *)
Theorem admin_route_sound jwt now req w req' :
  fst (and_then (protect jwt now) restrictToAdmin req w) = Ok (Next req') ->
  exists tok decoded u,
    bearer_token (authorization req) = Some tok /\ tok <> EmptyString
    /\ lookup_token tok (store w) = None
    /\ verifies jwt now tok decoded
    /\ users (store w) !! userId decoded = Some u
    /\ role u = "admin"
    /\ req' = authenticated req decoded.
Proof.
  unfold and_then. rewrite run_bind.
  pose proof (protect_keeps jwt now req w) as Hstore.
  pose proof (protect_Next_inv jwt now req w) as Hinv.
  destruct (protect jwt now req w) as [[[res|req1]|e] w1]; simpl in *;
    try discriminate.
  intros H.
  destruct (Hinv req1 eq_refl)
    as (tok & decoded & Htok & Hne & _ & Hfree & Hv & ->).
  destruct (restrictToAdmin_Next_inv _ _ _ H)
    as (-> & decoded' & u & Hd & Hu & Hrole).
  simpl in Hd. injection Hd as <-. rewrite <- Hstore in Hu.
  by exists tok, decoded, u.
Qed.

Lemma admin_route_sound_witness :
  exists tok decoded u,
    bearer_token (Some "Bearer tok.bob") = Some tok /\ tok <> EmptyString
    /\ lookup_token tok Sample.blog = None
    /\ verifies Sample.jwt 1000 tok decoded
    /\ users Sample.blog !! userId decoded = Some u
    /\ role u = "admin"
    /\ authenticated (Sample.bearer "Bearer tok.bob")
         (mkJwtPayload Sample.bob 0 2592000)
       = authenticated (Sample.bearer "Bearer tok.bob") decoded.
Proof.
  apply (admin_route_sound Sample.jwt 1000 (Sample.bearer "Bearer tok.bob")
           (Sample.world Sample.blog)).
  reflexivity.
Defined.

Lemma getSingleComment_answers isValid req :
  answers (getSingleComment isValid req).
Proof.
  apply answers_try_catch. intros e. apply answers_handleError.
Qed.

Lemma protect_answers jwt now req : answers (protect jwt now req).
Proof.
  unfold protect.
  assert (Hno : answers
            (res <- errorHandler.handleAuthError "No token provided" None ;;
             ret (Responded res))).
  { apply answers_bind; [apply answers_handleError|].
    intros res. apply answers_ret. }
  destruct (bearer_token (authorization req)) as [tok|]; [|exact Hno].
  destruct (negb (truthy_string tok)); [exact Hno|].
  apply answers_try_catch. intros e.
  apply answers_bind; [apply answers_handleError|].
  intros res. apply answers_ret.
Qed.

Lemma restrictToAdmin_answers req : answers (restrictToAdmin req).
Proof.
  apply answers_try_catch. intros e.
  apply answers_bind; [apply answers_handleError|].
  intros res. apply answers_ret.
Qed.

(** X7: the two middlewares, alone or chained, never change the store and
    never let an exception escape: every request ends in a response or in
    [next()]. *)
Theorem middleware_read_only jwt now req w :
  (store (snd (protect jwt now req w)) = store w
   /\ exists o, fst (protect jwt now req w) = Ok o)
  /\ (store (snd (restrictToAdmin req w)) = store w
      /\ exists o, fst (restrictToAdmin req w) = Ok o)
  /\ (store (snd (and_then (protect jwt now) restrictToAdmin req w))
      = store w
      /\ exists o,
           fst (and_then (protect jwt now) restrictToAdmin req w) = Ok o).
Proof.
  split; [|split].
  - split; [symmetry; apply protect_keeps|apply protect_answers].
  - split; [symmetry; apply restrictToAdmin_keeps
           |apply restrictToAdmin_answers].
  - unfold and_then. rewrite run_bind.
    pose proof (protect_keeps jwt now req w) as Hstore.
    destruct (protect_answers jwt now req w) as [o Ho].
    destruct (protect jwt now req w) as [r w1]. simpl in *. subst r.
    destruct o as [res|req1]; simpl.
    + split; [done|by eexists].
    + split; [|apply restrictToAdmin_answers].
      rewrite Hstore. symmetry. apply restrictToAdmin_keeps.
Qed.

(** ** Sign-out *)

Lemma split_pieces sep s :
  Forall (fun piece => includes sep piece = false) (split sep s).
Proof.
  induction s as [|c s IH]; simpl.
  - by constructor.
  - destruct (Ascii.eqb c sep) eqn:Hc.
    + by constructor.
    + destruct (split sep s) as [|piece pieces].
      * constructor; [|done]. simpl. by rewrite Hc.
      * inversion IH as [|? ? Hp Hps]; subst.
        constructor; [|done]. simpl. by rewrite Hc.
Qed.

Lemma substring_all s : String.substring 0 (String.length s) s = s.
Proof. induction s as [|c s IH]; simpl; [done|by rewrite IH]. Qed.

Lemma substring_from_append p s :
  substring_from (String.length p) (p +:+ s) = s.
Proof.
  unfold substring_from. induction p as [|c p IH]; simpl.
  - rewrite Nat.sub_0_r. apply substring_all.
  - exact IH.
Qed.

Lemma prefix_of_append p s : String.prefix p (p +:+ s) = true.
Proof.
  induction p as [|c p IH]; simpl; [by destruct s|].
  destruct (ascii_dec c c); [exact IH|done].
Qed.

Lemma replace_unfold pat rep s :
  replace pat rep s
  = if String.prefix pat s
    then rep +:+ substring_from (String.length pat) s
    else match s with
         | EmptyString => EmptyString
         | String c rest => String c (replace pat rep rest)
         end.
Proof. destruct s; reflexivity. Qed.

Lemma replace_Bearer rest :
  replace "Bearer " EmptyString ("Bearer " +:+ rest) = rest.
Proof.
  rewrite replace_unfold, prefix_of_append.
  change (String.length "Bearer ") with 7%nat.
  apply (substring_from_append "Bearer " rest).
Qed.

(** X8: the token [protect] takes from a header never contains a space, and
    it is the token [signoutUser] takes from the same header exactly when
    the latter contains no space. *)
Theorem header_tokens_agree h tok :
  bearer_token (Some h) = Some tok ->
  includes " " tok = false
  /\ (replace "Bearer " EmptyString h = tok
      <-> includes " " (replace "Bearer " EmptyString h) = false).
Proof.
  unfold bearer_token.
  destruct (truthy_string h && startsWith "Bearer " h) eqn:E; [|discriminate].
  apply andb_true_iff in E as [_ E].
  apply prefix_append in E as [rest ->].
  rewrite split_Bearer, replace_Bearer. simpl.
  pose proof (split_pieces " " rest) as Hpieces.
  destruct (split " " rest) as [|piece pieces] eqn:Hsplit; [discriminate|].
  intros [= ->]. inversion Hpieces as [|? ? Htok _]; subst.
  split; [exact Htok|]. split.
  - by intros ->.
  - intros Hrest. rewrite (split_not_included _ _ Hrest) in Hsplit.
    by injection Hsplit.
Qed.

Lemma header_tokens_agree_witness :
  includes " " "tok.alice" = false
  /\ (replace "Bearer " EmptyString "Bearer tok.alice x" = "tok.alice"
      <-> includes " " (replace "Bearer " EmptyString "Bearer tok.alice x")
          = false).
Proof.
  apply (header_tokens_agree "Bearer tok.alice x" "tok.alice").
  reflexivity.
Defined.

Lemma lookup_token_add_eq tok e s :
  lookup_token tok (blacklist_add tok e s) <> None.
Proof.
  unfold lookup_token, blacklist_add. simpl. intros Hnone.
  assert (Hin : In (mkBlacklistedToken tok e)
                  (blacklistedTokens s ++ [mkBlacklistedToken tok e]))
    by (apply in_or_app; right; by left).
  pose proof (find_none _ _ Hnone _ Hin) as Hf. simpl in Hf.
  rewrite String.eqb_refl in Hf. discriminate.
Qed.

Lemma lookup_token_add_ne tok e s t :
  t <> tok -> lookup_token t (blacklist_add tok e s) = lookup_token t s.
Proof.
  intros Hne. unfold lookup_token, blacklist_add. simpl.
  apply find_app_false. simpl. apply String.eqb_neq. congruence.
Qed.

(** X9: [addToBlacklist] either returns, and then it has appended one entry
    for the token, expiring 2 592 000 000 ms (thirty days) after [now], so
    that the token is found from then on while lookups of other tokens are
    unaffected; or it rethrows the store's error (the store was
    unavailable, or the schema has a unique index and the token was already
    listed) and has written nothing. *)
Theorem addToBlacklist_effect uniq now tok w :
  match addToBlacklist uniq now tok w with
  | (Ok _, w') =>
      store w' = blacklist_add tok (now + 2592000000) (store w)
      /\ lookup_token tok (store w') <> None
      /\ forall t, t <> tok ->
           lookup_token t (store w') = lookup_token t (store w)
  | (Throw _, w') =>
      store w' = store w
      /\ (hd false (faults w) = true
          \/ uniq = true /\ lookup_token tok (store w) <> None)
  end.
Proof.
  unfold addToBlacklist, try_catch, bind, BlacklistedToken_create, db_call.
  destruct (hd false (faults w)); simpl; [by split; [|left]|].
  destruct uniq; simpl.
  - unfold lookup_token.
    destruct (existsb _ _) eqn:Hex; simpl.
    + split; [done|]. right. split; [done|].
      apply existsb_exists in Hex as (d & Hin & Hd).
      intros Hnone. pose proof (find_none _ _ Hnone _ Hin) as Hf.
      simpl in Hf. congruence.
    + fold (lookup_token tok (blacklist_add tok (now + 2592000000) (store w))).
      split; [done|]. split; [apply lookup_token_add_eq|].
      intros t Hne. by apply (lookup_token_add_ne tok).
  - split; [done|]. split; [apply lookup_token_add_eq|].
    intros t Hne. by apply (lookup_token_add_ne tok).
Qed.

(** X10: signing out through the route revokes the session.  For a header
    ['Bearer <token>'] whose token contains no space, has no blacklist entry
    and verifies, [protect] followed by [signoutUser] answers 200, and from
    then on [protect] answers the same header with [RevokedCredential], at
    any time and whatever else was journalled, as long as the store answers
    the lookup. *)
Theorem signout_route_revokes jwt uniq now now' req w tok decoded :
  authorization req = Some ("Bearer " +:+ tok) ->
  tok <> EmptyString -> includes " " tok = false ->
  faults w = [] ->
  lookup_token tok (store w) = None ->
  verifies jwt now tok decoded ->
  exists w1,
    route (protect jwt now) (signoutUser uniq now) req w
    = (Ok (mkResponse 200 "Successfully signed out"), w1)
    /\ forall fs j,
         hd false fs = false ->
         protect jwt now' req (mkWorld (store w1) fs j)
         = reply_revoked tok (mkWorld (store w1) fs j).
Proof.
  intros Hauth Hne Hsp Hf Hfree Hv.
  assert (Htok : bearer_token (authorization req) = Some tok)
    by (rewrite Hauth; by apply bearer_token_Bearer).
  unfold route. rewrite run_bind.
  rewrite (protect_verified jwt now req w tok decoded); try done;
    [|by rewrite Hf].
  unfold signoutUser. rewrite run_try_catch.
  unfold authenticated. cbn [authorization]. rewrite Hauth.
  cbn [option_map]. rewrite replace_Bearer. cbn [truthy default].
  rewrite (truthy_string_true _ Hne). cbn [negb]. rewrite run_bind.
  unfold addToBlacklist, try_catch, bind, BlacklistedToken_create, db_call.
  rewrite Hf. simpl.
  assert (Hex : existsb (fun d => String.eqb (token d) tok)
                  (blacklistedTokens (store w)) = false).
  { destruct (existsb _ _) eqn:Hex; [|done].
    apply existsb_exists in Hex as (d & Hin & Hd).
    pose proof (find_none _ _ Hfree _ Hin) as Hn. simpl in Hn. congruence. }
  rewrite Hex, andb_false_r. simpl. eexists. split; [reflexivity|].
  intros fs j Hup.
  apply (protect_blacklisted jwt now' req _ tok
           (mkBlacklistedToken tok (now + 30 * 24 * 60 * 60 * 1000)));
    try done.
  simpl. apply in_or_app. right. by left.
Qed.

Lemma signout_route_revokes_witness :
  let req := Sample.bearer "Bearer tok.alice" in
  exists w1,
    route (protect Sample.jwt 1000) (signoutUser false 1000) req
      (Sample.world Sample.blog)
    = (Ok (mkResponse 200 "Successfully signed out"), w1)
    /\ forall fs j,
         hd false fs = false ->
         protect Sample.jwt 5000 req (mkWorld (store w1) fs j)
         = reply_revoked "tok.alice" (mkWorld (store w1) fs j).
Proof.
  intros req.
  apply (signout_route_revokes Sample.jwt false 1000 5000 req
           (Sample.world Sample.blog) "tok.alice"
           (mkJwtPayload Sample.alice 0 2592000)).
  - reflexivity.
  - discriminate.
  - reflexivity.
  - reflexivity.
  - reflexivity.
  - split; reflexivity.
Defined.

(** ** Password reset *)

Ltac kept H :=
  cbv in H; injection H as <- <-;
  split; [intros _; reflexivity|intros Hs; discriminate Hs].

Lemma resetPassword_run jwt sp now req w :
  exists res w',
    resetPassword jwt sp now req w = (Ok res, w')
    /\ (status res <> 200 -> store w' = store w)
    /\ (status res = 200 ->
        exists tok pw decoded u e hashed,
          body req !! "token" = Some (JStr tok)
          /\ body req !! "newPassword" = Some pw
          /\ verifies jwt now tok decoded
          /\ users (store w) !! userId decoded = Some u
          /\ resetPasswordToken u = Some tok
          /\ resetPasswordExpires u = Some e /\ now < e
          /\ sp pw = Some hashed
          /\ store w'
             = set_user (userId decoded)
                 (mkUser (username u) (email u) hashed (role u) None None)
                 (store w)).
Proof.
  destruct (resetPassword jwt sp now req w) as [r w'] eqn:H.
  assert (Hans : exists res, r = Ok res).
  { pose proof (answers_try_catch
                  (A := Response)) as Ha.
    unfold resetPassword in H.
    match type of H with
    | try_catch ?m ?h w = _ =>
        destruct (Ha m h (fun e => answers_handleError _ _ _) w) as [res Hr];
        rewrite H in Hr; simpl in Hr; by exists res
    end. }
  destruct Hans as [res ->]. exists res, w'. split; [reflexivity|].
  unfold resetPassword in H.
  destruct (body req !! "token") as [tokv|] eqn:Et; [|kept H].
  destruct (body req !! "newPassword") as [pw|] eqn:Ep; simpl in H.
  2:{ rewrite orb_true_r in H. kept H. }
  destruct (negb (truthy_json tokv) || negb (truthy_json pw)) eqn:Etr;
    [kept H|].
  destruct tokv as [| | | tok | |]; try kept H.
  unfold try_catch, bind, jwt_verify, emit in H. simpl in H.
  destruct (jwt tok) as [decoded|] eqn:Ej; [|kept H].
  destruct (exp decoded <=? now / 1000) eqn:Eexp; [kept H|].
  unfold User_findOne_reset, db_call in H. simpl in H.
  destruct (hd false (faults w)) eqn:F1; [kept H|].
  simpl in H.
  destruct (users (store w) !! userId decoded) as [u|] eqn:Eu; [|kept H].
  destruct (resetPasswordToken u) as [t|] eqn:Ert; [|kept H].
  destruct (resetPasswordExpires u) as [e|] eqn:Ere; [|kept H].
  destruct (String.eqb_spec t tok) as [->|]; simpl in H; [|kept H].
  destruct (now <? e) eqn:Elt; [|kept H].
  unfold validate_password in H.
  destruct (sp pw) as [hashed|] eqn:Esp; [|kept H].
  unfold User_save, db_call, ret in H. simpl in H.
  destruct (hd false (tl (faults w))) eqn:F2; [kept H|].
  simpl in H. injection H as <- <-. split; [intros Hs; by destruct Hs|].
  intros _. exists tok, pw, decoded, u, e, hashed. simpl.
  repeat split; try done.
  - by apply Z.leb_gt.
  - by apply Z.ltb_lt.
Qed.

(** X11: [resetPassword] always answers, and it writes only when it
    answers 200.  It answers 200 only for a string token that verifies at
    the time of the request, names a user who has that very token stored
    with a stored expiry in the future, and comes with a new password the
    schema accepts; what it writes then is that user with the new password
    stored and the reset token and expiry cleared, the name, e-mail
    address and role being kept.  Every other user and collection is left
    as it was. *)
Theorem resetPassword_outcome jwt sp now req w :
  exists res w',
    resetPassword jwt sp now req w = (Ok res, w')
    /\ (status res <> 200 -> store w' = store w)
    /\ (status res = 200 ->
        exists tok pw decoded u e hashed,
          body req !! "token" = Some (JStr tok)
          /\ body req !! "newPassword" = Some pw
          /\ verifies jwt now tok decoded
          /\ users (store w) !! userId decoded = Some u
          /\ resetPasswordToken u = Some tok
          /\ resetPasswordExpires u = Some e /\ now < e
          /\ sp pw = Some hashed
          /\ store w'
             = set_user (userId decoded)
                 (mkUser (username u) (email u) hashed (role u) None None)
                 (store w)).
Proof. apply resetPassword_run. Qed.

(** X12: conversely, a reset request with a verifying token that is the one
    stored for its user, before the stored expiry, with a new password the
    schema accepts, is answered 200 when the store answers, and the user is
    written back with the new password and no reset token. *)
Theorem resetPassword_succeeds jwt sp now req w tok pw decoded u e hashed :
  body req !! "token" = Some (JStr tok) -> tok <> EmptyString ->
  body req !! "newPassword" = Some pw -> truthy_json pw = true ->
  verifies jwt now tok decoded ->
  users (store w) !! userId decoded = Some u ->
  resetPasswordToken u = Some tok ->
  resetPasswordExpires u = Some e -> now < e ->
  sp pw = Some hashed ->
  faults w = [] ->
  resetPassword jwt sp now req w
  = (Ok (mkResponse 200 "Password reset successful"),
     mkWorld (set_user (userId decoded) (clear_reset hashed u) (store w)) []
       (journal w ++ [EvJwtVerify tok;
                      EvDb (OpUserFindOneReset (userId decoded) tok now);
                      EvDb (OpUserSave (userId decoded));
                      EvLogSuccess "Password reset"])).
Proof.
  intros Et Hne Ep Hpw [Ej Hexp] Eu Ert Ere Hlt Esp Hf.
  unfold resetPassword. rewrite Et, Ep. simpl.
  rewrite (truthy_string_true _ Hne), Hpw. simpl.
  unfold try_catch, bind, jwt_verify, emit. simpl. rewrite Ej.
  destruct (Z.leb_spec (exp decoded) (now / 1000)) as [Hle|_]; [lia|].
  unfold User_findOne_reset, db_call. simpl. rewrite Hf. simpl.
  rewrite Eu, Ert, Ere, String.eqb_refl. simpl.
  destruct (Z.ltb_spec now e) as [_|Hge]; [|lia].
  unfold validate_password. rewrite Esp. cbn.
  rewrite <- !app_assoc. reflexivity.
Qed.

Lemma resetPassword_succeeds_witness :
  let req :=
    mkRequest None ∅
      (list_to_map [("token", JStr "tok.alice");
                    ("newPassword", JStr "s3cret")]) None in
  fst (resetPassword Sample.jwt Sample.storedPassword 1000 req
         (Sample.world Sample.blog_reset_pending))
  = Ok (mkResponse 200 "Password reset successful").
Proof.
  intros req.
  rewrite (resetPassword_succeeds Sample.jwt Sample.storedPassword 1000 req
             (Sample.world Sample.blog_reset_pending) "tok.alice"
             (JStr "s3cret") (mkJwtPayload Sample.alice 0 2592000)
             (mkUser "alice" "alice@example.com" "hash:a" "user"
                (Some "tok.alice") (Some 3600000))
             3600000 "hash:s3cret").
  - reflexivity.
  - reflexivity.
  - discriminate.
  - reflexivity.
  - reflexivity.
  - split; reflexivity.
  - reflexivity.
  - reflexivity.
  - reflexivity.
  - reflexivity.
  - reflexivity.
  - reflexivity.
Defined.

(** ** The guarded handlers *)

Section GuardedMore.

Variable trim : string -> string.
Variable isValidObjectId : json -> bool.
Variable castObjectId : json -> option string.




(** X14: a guarded handler answers a missing or invalid id parameter with
    400 before it touches the store: the only effect is the logged
    error. *)
Theorem guarded_invalid_id g req w decoded :
  user req = Some decoded ->
  invalid_id_param isValidObjectId (params req !! target_param g) = true ->
  guarded_handler trim isValidObjectId castObjectId g req w
  = (Ok (mkResponse 400 "Validation failed"),
     mkWorld (store w) (faults w)
       (journal w ++ [EvLogError (invalid_id_message g) 400])).
Proof.
  intros Hu Hbad.
  destruct g; simpl in *;
    [unfold deleteComment|unfold updatePost|unfold deletePost];
    rewrite run_try_catch, run_bind; unfold req_user_userId;
    rewrite Hu; simpl; rewrite Hbad; reflexivity.
Qed.




Lemma supplied_string_run (v : option json) (old : string) :
  truthy truthy_json v && truthy (not_a_nonblank_string trim) v = false ->
  forall w,
    (if truthy truthy_json v then json_trim trim (default JNull v)
     else ret old) w = (Ok (supplied_string trim v old), w).
Proof.
  destruct v as [[| b | n | s | l | l]|]; simpl; intros H w; try done.
  - by destruct b.
  - by destruct (negb (n =? 0)).
  - by destruct (truthy_string s).
Qed.

Lemma supplied_category_run (v : option json) old :
  negb (truthy truthy_json v)
  || truthy (fun v => if castObjectId v is Some _ then true else false) v
     = true ->
  forall w,
    (if truthy truthy_json v
     then assign_ObjectId castObjectId (default JNull v)
     else ret old) w = (Ok (supplied_category castObjectId v old), w).
Proof.
  destruct v as [v|]; simpl; [|done].
  destruct (truthy_json v); simpl; [|done].
  unfold assign_ObjectId. by destruct (castObjectId v).
Qed.

Lemma supplied_tags_run (v : option json) old :
  truthy truthy_json v && truthy not_an_array_of_strings v = false ->
  forall w,
    (if truthy truthy_json v then assign_strings (default JNull v)
     else ret old) w = (Ok (supplied_tags v old), w).
Proof.
  destruct v as [[| b | n | s | l | l]|]; simpl; intros H w; try done.
  - by destruct b.
  - by destruct (negb (n =? 0)).
  - by destruct (truthy_string s).
  - by rewrite H.
Qed.

(** X17: for an authorized caller and a valid body, once the save has gone
    through the post is stored with each supplied field replaced (title and
    content trimmed) and every other field kept; the answer is 200, or 500
    when the query that reads the post back for the response fails, in
    which case the update has been written all the same. *)
Theorem updatePost_writes req w decoded id p u :
  user req = Some decoded ->
  params req !! "postId" = Some id ->
  reaches_authorization trim isValidObjectId UpdatePost req = true ->
  castable castObjectId UpdatePost req = true ->
  posts (store w) !! id = Some p ->
  users (store w) !! userId decoded = Some u ->
  (exists owner,
     author p = Some owner /\ (userId decoded = owner \/ role u = "admin")) ->
  hd false (faults w) = false ->
  hd false (tl (faults w)) = false ->
  hd false (tl (tl (faults w))) = false ->
  let out := updatePost trim isValidObjectId castObjectId req w in
  store (snd out)
  = set_posts (<[id := updated_post trim castObjectId req p]>
                 (posts (store w))) (store w)
  /\ fst out
     = Ok (if hd false (tl (tl (tl (faults w))))
           then mkResponse 500 "Database error occurred"
           else mkResponse 200 "Post updated successfully").
Proof.
  intros Hu Hid Hv Hc Hp Hrec (owner & Ha & Hauth) F1 F2 F3.
  apply andb_true_iff in Hv as [Hv1 Hv2]. apply negb_true_iff in Hv1.
  simpl in *.
  apply negb_true_iff in Hv2. unfold update_rejected in Hv2.
  apply orb_false_elim in Hv2 as [Hv2 Ht4].
  apply orb_false_elim in Hv2 as [Hv2 Ht3].
  apply orb_false_elim in Hv2 as [Ht1 Ht2].
  apply (denied_false (userId decoded) owner u) in Hauth.
  unfold denied in Hauth.
  unfold updatePost. rewrite Hid in *.
  rewrite run_try_catch, run_bind. unfold req_user_userId. rewrite Hu.
  simpl. rewrite Hv1, Ht1, Ht2, Ht3, Ht4.
  rewrite run_bind. unfold Post_findById.
  rewrite run_db_call, F1. simpl. rewrite Hp.
  rewrite run_bind. unfold User_findById. rewrite run_db_call. simpl.
  rewrite F2, Hrec, Ha. simpl. rewrite bind_ret_l, Hauth.
  rewrite run_bind, (supplied_string_run _ (title p) Ht1).
  rewrite run_bind, (supplied_string_run _ (content p) Ht2).
  rewrite run_bind, (supplied_category_run _ (category p) Hc).
  rewrite run_bind, (supplied_tags_run _ (tags p) Ht4).
  rewrite run_bind. unfold Post_save. rewrite run_db_call. simpl.
  rewrite F3. simpl.
  rewrite run_bind. unfold Post_findById_populate.
  rewrite run_db_call. simpl.
  unfold updated_post. rewrite Ha.
  destruct (hd false (tl (tl (tl (faults w))))); cbn; split; reflexivity.
Qed.

Lemma posts_handlers_keep g :
  forall req,
    keeps credentials_kept
      (guarded_handler trim isValidObjectId castObjectId g req).
Proof.
  intros req.
  destruct g; simpl;
    [unfold deleteComment|unfold updatePost|unfold deletePost];
    keeps_all; by split.
Qed.

Lemma createPost_keeps now new_id req :
  keeps credentials_kept
    (createPost trim isValidObjectId castObjectId now new_id req).
Proof.
  unfold createPost. keeps_all; try destruct (posts _ !! _); by split.
Qed.

End GuardedMore.

(** ** [createPost] and [getSingleComment] *)

Section CreatePost.

Variable trim : string -> string.
Variable isValidObjectId : json -> bool.
Variable castObjectId : json -> option string.

Lemma acceptable_text_spec (v : option json) :
  negb (truthy truthy_json v) || truthy (not_a_nonblank_string trim) v
  = false
  <-> acceptable_text trim v.
Proof.
  split.
  - destruct v as [[| b | n | s | l | l]|]; simpl; try discriminate;
      try (rewrite orb_true_r; discriminate).
    intros H. apply orb_false_elim in H as [Hs Hb].
    exists s. split; [done|]. split.
    + intros ->. discriminate Hs.
    + intros Ht. rewrite Ht in Hb. discriminate Hb.
  - intros (s & -> & Hs & Ht). simpl.
    rewrite (truthy_string_true _ Hs). simpl.
    destruct (trim s); [done|reflexivity].
Qed.

Lemma assign_ObjectId_Some v id :
  castObjectId v = Some id -> assign_ObjectId castObjectId v = ret (Some id).
Proof. intros H. unfold assign_ObjectId. by rewrite H. Qed.

(** X18: [createPost] requires a title and a content that are non-empty
    strings with something left after trimming; otherwise it answers 400
    and does nothing but log the error: no document is built, no store
    operation is issued. *)
Theorem createPost_requires_text now new_id req w :
  ~ acceptable_text trim (body req !! "title")
  \/ ~ acceptable_text trim (body req !! "content") ->
  exists why,
    createPost trim isValidObjectId castObjectId now new_id req w
    = (Ok (mkResponse 400 "Validation failed"),
       mkWorld (store w) (faults w) (journal w ++ [EvLogError why 400])).
Proof.
  intros H. unfold createPost. rewrite run_try_catch. cbv zeta.
  destruct (negb (truthy truthy_json (body req !! "title"))
            || truthy (not_a_nonblank_string trim) (body req !! "title"))
    eqn:Ht; [by eexists|].
  destruct (negb (truthy truthy_json (body req !! "content"))
            || truthy (not_a_nonblank_string trim) (body req !! "content"))
    eqn:Hc; [by eexists|].
  apply acceptable_text_spec in Ht, Hc. by destruct H.
Qed.

Lemma createPost_run now new_id req w decoded t c author_id :
  user req = Some decoded ->
  body req !! "title" = Some (JStr t) -> t <> EmptyString ->
  trim t <> EmptyString ->
  body req !! "content" = Some (JStr c) -> c <> EmptyString ->
  trim c <> EmptyString ->
  truthy truthy_json (body req !! "category")
  && negb (truthy isValidObjectId (body req !! "category")) = false ->
  truthy truthy_json (body req !! "tags")
  && truthy not_an_array_of_strings (body req !! "tags") = false ->
  negb (truthy truthy_json (body req !! "category"))
  || truthy (fun v => if castObjectId v is Some _ then true else false)
       (body req !! "category") = true ->
  castObjectId (JStr (userId decoded)) = Some author_id ->
  posts (store w) !! new_id = None ->
  hd false (faults w) = false ->
  let out := createPost trim isValidObjectId castObjectId now new_id req w in
  store (snd out)
  = set_posts
      (<[new_id :=
           mkPost (trim t) (trim c) (Some author_id)
             (supplied_category castObjectId (body req !! "category") None)
             (supplied_tags (body req !! "tags") []) false now]>
         (posts (store w))) (store w)
  /\ fst out
     = Ok (if hd false (tl (faults w))
           then mkResponse 500 "Database error occurred"
           else mkResponse 201 "Post created successfully")
  /\ faults (snd out) = tl (tl (faults w)).
Proof.
  intros Hu Ht Hte Htt Hc Hce Hct Hcat Htags Hcast Ha Hfresh F1.
  assert (Hat : acceptable_text trim (body req !! "title"))
    by (by exists t).
  assert (Hac : acceptable_text trim (body req !! "content"))
    by (by exists c).
  apply acceptable_text_spec in Hat, Hac.
  unfold createPost. rewrite run_try_catch. cbv zeta.
  rewrite Hat, Hac, Hcat, Htags. rewrite Ht, Hc.
  cbn [default from_option id json_trim].
  rewrite !bind_ret_l. rewrite run_bind. unfold req_user_userId.
  rewrite Hu. simpl. rewrite (assign_ObjectId_Some _ _ Ha), bind_ret_l.
  rewrite run_bind, (supplied_category_run castObjectId _ None Hcast).
  rewrite run_bind, (supplied_tags_run _ [] Htags).
  rewrite run_bind. unfold Post_insert. rewrite run_db_call, F1.
  rewrite Hfresh. simpl.
  rewrite run_bind. unfold Post_findById_populate.
  rewrite run_db_call. simpl.
  destruct (hd false (tl (faults w))); cbn; repeat split; reflexivity.
Qed.

(** X19: for an authenticated caller and a valid body, once the save has
    gone through [createPost] has stored, under the new id and nowhere
    else, a post with the trimmed title and content, the caller as author,
    the supplied category and tags (none and the empty list by default),
    [published] false and [createdAt] the time of the request; the answer
    is 201, or 500 when the query that reads the post back fails, in which
    case the post has been created all the same. *)
Theorem createPost_creates now new_id req w decoded t c author_id :
  user req = Some decoded ->
  body req !! "title" = Some (JStr t) -> t <> EmptyString ->
  trim t <> EmptyString ->
  body req !! "content" = Some (JStr c) -> c <> EmptyString ->
  trim c <> EmptyString ->
  truthy truthy_json (body req !! "category")
  && negb (truthy isValidObjectId (body req !! "category")) = false ->
  truthy truthy_json (body req !! "tags")
  && truthy not_an_array_of_strings (body req !! "tags") = false ->
  negb (truthy truthy_json (body req !! "category"))
  || truthy (fun v => if castObjectId v is Some _ then true else false)
       (body req !! "category") = true ->
  castObjectId (JStr (userId decoded)) = Some author_id ->
  posts (store w) !! new_id = None ->
  hd false (faults w) = false ->
  let out := createPost trim isValidObjectId castObjectId now new_id req w in
  store (snd out)
  = set_posts
      (<[new_id :=
           mkPost (trim t) (trim c) (Some author_id)
             (supplied_category castObjectId (body req !! "category") None)
             (supplied_tags (body req !! "tags") []) false now]>
         (posts (store w))) (store w)
  /\ fst out
     = Ok (if hd false (tl (faults w))
           then mkResponse 500 "Database error occurred"
           else mkResponse 201 "Post created successfully").
Proof.
  intros Hu Ht Hte Htt Hc Hce Hct Hcat Htags Hcast Ha Hfresh F1 out.
  destruct (createPost_run now new_id req w decoded t c author_id)
    as (Hs & Hr & _); done.
Qed.



End CreatePost.

(** ** What no endpoint does *)

Section EndpointInvariants.

Variable jwt : string -> option JwtPayload.
Variable uniq : bool.
Variable sp : json -> option string.
Variable trim : string -> string.
Variable isValidObjectId : json -> bool.
Variable castObjectId : json -> option string.

#[local] Abbreviation after' :=
  (after jwt uniq sp trim isValidObjectId castObjectId).

(** Every endpoint leaves the users' names, addresses and roles alone and
    keeps the blacklist as a prefix of the new one. *)
Lemma after_store ep req w :
  blacklistedTokens (store w)
    `prefix_of` blacklistedTokens (store (after' ep req w))
  /\ forall id,
       identity_of <$> users (store (after' ep req w)) !! id
       = identity_of <$> users (store w) !! id.
Proof.
  destruct ep as [now| |now|now|now new_id| | | |]; simpl.
  - by rewrite <- (protect_keeps jwt now req w).
  - by rewrite <- (restrictToAdmin_keeps req w).
  - destruct (signoutUser_keeps uniq now req w) as (Hb & Hu & _).
    split; [exact Hb|]. intros id. by rewrite Hu.
  - destruct (resetPassword_run jwt sp now req w)
      as (res & w' & Hrun & Hkeep & Hwrite).
    rewrite Hrun. simpl.
    destruct (decide (status res = 200)) as [Hs|Hs].
    + destruct (Hwrite Hs)
        as (tok & pw & decoded & u & e & hashed
            & _ & _ & _ & Hu & _ & _ & _ & _ & ->).
      split; [done|]. intros id. simpl.
      destruct (decide (userId decoded = id)) as [<-|Hne].
      * by rewrite lookup_insert_eq, Hu.
      * by rewrite lookup_insert_ne.
    + by rewrite (Hkeep Hs).
  - destruct (createPost_keeps trim isValidObjectId castObjectId now new_id
                req w) as [Hb Hu].
    rewrite Hb. split; [done|]. intros id. by rewrite Hu.
  - destruct (posts_handlers_keep trim isValidObjectId castObjectId
                UpdatePost req w) as [Hb Hu].
    simpl in Hb, Hu. rewrite Hb. split; [done|]. intros id. by rewrite Hu.
  - destruct (posts_handlers_keep trim isValidObjectId castObjectId
                DeletePost req w) as [Hb Hu].
    simpl in Hb, Hu. rewrite Hb. split; [done|]. intros id. by rewrite Hu.
  - destruct (posts_handlers_keep trim isValidObjectId castObjectId
                DeleteComment req w) as [Hb Hu].
    simpl in Hb, Hu. rewrite Hb. split; [done|]. intros id. by rewrite Hu.
  - by rewrite <- (getSingleComment_keeps isValidObjectId req w).
Qed.

(** X22: revocation is permanent as far as the application goes: none of
    the endpoints modelled here removes or alters a blacklist entry; the
    blacklist after a request extends the one before, so a token that was
    found before is found afterwards, with the same entry. *)
Theorem revocation_is_permanent ep req w :
  blacklistedTokens (store w)
    `prefix_of` blacklistedTokens (store (after' ep req w))
  /\ forall t d,
       lookup_token t (store w) = Some d ->
       lookup_token t (store (after' ep req w)) = Some d.
Proof.
  destruct (after_store ep req w) as [Hprefix _].
  split; [exact Hprefix|]. intros t d Hfound.
  destruct Hprefix as [l Hl]. unfold lookup_token in *. rewrite Hl.
  by apply find_app_Some.
Qed.

(** X23: none of the endpoints modelled here creates or deletes a user
    record or changes a user's name, e-mail address or role: privileges
    change only outside these handlers. *)
Theorem identities_are_stable ep req w id :
  identity_of <$> users (store (after' ep req w)) !! id
  = identity_of <$> users (store w) !! id.
Proof. apply after_store. Qed.

End EndpointInvariants.

(** ** The database singleton *)

(** X24: once [connect] has returned a connection, every later [connect]
    on the singleton returns that same connection without calling
    [mongoose.connect] again, whatever a new attempt would yield, and
    leaves the singleton as it is. *)
Theorem connect_reuses_connection {Connection : Type}
    (attempt attempt' : Error + Connection) (db : Database.t Connection) c :
  fst (fst (Database.connect Connection attempt db)) = Database.Returned c ->
  let db1 := snd (fst (Database.connect Connection attempt db)) in
  Database.connect Connection attempt' db1
  = (Database.Returned c, db1,
     [Database.ConsolaInfo "Using existing MongoDB connection"]).
Proof.
  unfold Database.connect.
  destruct (Database.connection Connection db) as [c0|] eqn:Hc0; simpl.
  - intros [= <-]. by rewrite Hc0.
  - destruct attempt as [err|c1]; simpl; [discriminate|].
    by intros [= <-].
Qed.

Lemma connect_reuses_connection_witness :
  Database.connect string (inl (mkError "MongoNetworkError" "down"))
    (snd (fst (Database.connect string (inr "conn-1")
                 (Database.instance string))))
  = (Database.Returned "conn-1",
     snd (fst (Database.connect string (inr "conn-1")
                 (Database.instance string))),
     [Database.ConsolaInfo "Using existing MongoDB connection"]).
Proof.
  apply (connect_reuses_connection (inr "conn-1")
           (inl (mkError "MongoNetworkError" "down"))
           (Database.instance string) "conn-1").
  reflexivity.
Defined.

(** ** The further properties on the example blog *)


Lemma guarded_invalid_id_witness :
  let req := Sample.as_user Sample.alice "postId" "not-an-id" [] in
  let w := Sample.world Sample.blog in
  guarded_handler Sample.trim Sample.isValidObjectId Sample.castObjectId
    UpdatePost req w
  = (Ok (mkResponse 400 "Validation failed"),
     mkWorld (store w) (faults w)
       (journal w ++ [EvLogError "Invalid post ID" 400])).
Proof.
  intros req w.
  apply (guarded_invalid_id Sample.trim Sample.isValidObjectId
           Sample.castObjectId UpdatePost req w
           (mkJwtPayload Sample.alice 0 2592000)); reflexivity.
Defined.


(** The save goes through and the read-back fails: the answer is 500 and
    the post carries the new title. *)
Lemma updatePost_writes_witness :
  let req :=
    Sample.as_user Sample.alice "postId" Sample.post1
      [("title", JStr " Renamed ")] in
  let w := mkWorld Sample.blog [false; false; false; true] [] in
  let out :=
    updatePost Sample.trim Sample.isValidObjectId Sample.castObjectId
      req w in
  store (snd out)
  = set_posts
      (<[Sample.post1 :=
           updated_post Sample.trim Sample.castObjectId req Sample.the_post]>
         (posts (store w))) (store w)
  /\ fst out = Ok (mkResponse 500 "Database error occurred").
Proof.
  intros req w.
  apply (updatePost_writes Sample.trim Sample.isValidObjectId
           Sample.castObjectId req w (mkJwtPayload Sample.alice 0 2592000)
           Sample.post1 Sample.the_post Sample.user_alice); try reflexivity.
  exists Sample.alice. split; [reflexivity|]. by left.
Defined.

Lemma createPost_requires_text_witness :
  let req :=
    Sample.as_user Sample.alice "postId" Sample.post1
      [("title", JStr "   "); ("content", JStr "text")] in
  let w := Sample.world Sample.blog in
  exists why,
    createPost Sample.trim Sample.isValidObjectId Sample.castObjectId 5000
      "eeeeeeeeeeeeeeeeeeeeee05" req w
    = (Ok (mkResponse 400 "Validation failed"),
       mkWorld (store w) (faults w) (journal w ++ [EvLogError why 400])).
Proof.
  intros req w.
  apply (createPost_requires_text Sample.trim Sample.isValidObjectId
           Sample.castObjectId 5000 "eeeeeeeeeeeeeeeeeeeeee05" req w).
  left. intros (s & Hs & _ & Ht).
  vm_compute in Hs. injection Hs as <-. by apply Ht.
Defined.

Lemma createPost_creates_witness :
  let req :=
    Sample.as_user Sample.bob "postId" Sample.post1
      [("title", JStr " Second "); ("content", JStr "More");
       ("tags", JArr [JStr "news"])] in
  let w := Sample.world Sample.blog in
  let out :=
    createPost Sample.trim Sample.isValidObjectId Sample.castObjectId 5000
      "eeeeeeeeeeeeeeeeeeeeee05" req w in
  store (snd out)
  = set_posts
      (<["eeeeeeeeeeeeeeeeeeeeee05" :=
           mkPost "Second" "More" (Some Sample.bob) None ["news"] false
             5000]> (posts (store w))) (store w)
  /\ fst out = Ok (mkResponse 201 "Post created successfully").
Proof.
  intros req w.
  apply (createPost_creates Sample.trim Sample.isValidObjectId
           Sample.castObjectId 5000 "eeeeeeeeeeeeeeeeeeeeee05" req w
           (mkJwtPayload Sample.bob 0 2592000) " Second " "More"
           Sample.bob); try reflexivity; discriminate.
Defined.

